(** * detect_use_of_vendored_requests.py: a shallow embedding

    The script lists the Lambda functions of an account, downloads the
    deployment package of every Python one, and greps its [.py] files for the
    deprecated [botocore.vendored] imports.

    Modelling choices.
    - [bytes] (what a file opened with ["rb"] yields) is [list byte].
    - [str] is [string]; a non-ASCII [str] is read as its UTF-8 encoding,
      which keeps the code-point order that [sorted] uses.
    - a [dict] with string keys is a [gmap string _]; a missing key raises
      [KeyError].
    - exceptions are the [Raise] branch of [result]; the main program runs in
      a small monad that threads the number of scratch directories made so
      far and writes a trace of the calls to the outside world.
    - the outside world (AWS, the network, the file system, [os.path]) is a
      record of oracles, [World]. *)

From Stdlib Require Import Strings.Ascii Strings.Byte.
From stdpp Require Import base list strings gmap sorting.

Local Open Scope string_scope.
Local Open Scope list_scope.

(** ** Bytes *)

Module Bytes.

Definition bytes := list byte.

(** A bytes literal, [b"..."]. *)
Definition lit (s : string) : bytes := Stdlib.Strings.String.list_byte_of_string s.

(** The line terminator of binary-mode iteration, [b"\n"]. *)
Definition LF : byte := x0a.
Definition CR : byte := x0d.

(** [s.startswith(p)] on bytes. *)
Fixpoint startswith (p s : bytes) : bool :=
  match p, s with
  | [], _ => true
  | _ :: _, [] => false
  | a :: p', b :: s' => Byte.eqb a b && startswith p' s'
  end.

(** [needle in hay] on bytes: [needle] occurs at some offset of [hay]. *)
Fixpoint contains (needle hay : bytes) : bool :=
  startswith needle hay
  || match hay with
     | [] => false
     | _ :: hay' => contains needle hay'
     end.

(** [for line in f] over a file opened in binary mode: the content cut
    after every [b"\n"], terminators kept; a last line with no terminator
    is yielded as it is, and an empty file yields nothing. *)
Fixpoint lines (s : bytes) : list bytes :=
  match s with
  | [] => []
  | b :: s' =>
      if Byte.eqb b LF then [b] :: lines s'
      else match lines s' with
           | [] => [[b]]
           | l :: ls => (b :: l) :: ls
           end
  end.

End Bytes.

Import Bytes.

(** ** Exceptions *)

Inductive exn : Type :=
| RuntimeError (msg : string)
| KeyError (key : string)
| OSError (path : string)
| ExternalError (what : string).

Inductive result (A : Type) : Type :=
| Ok (a : A)
| Raise (e : exn).
Arguments Ok {A} a.
Arguments Raise {A} e.

(** ** The import classifier (lines 70-97) *)

Definition needle_import : bytes := lit "import botocore.vendored".
Definition needle_from : bytes := lit "from botocore.vendored import ".

(** The condition of the [if] at lines 91-94. *)
Definition line_matches (line : bytes) : bool :=
  contains needle_import line || contains needle_from line.

(** The [for] loop of lines 90-97 over the lines still to come.  Returns the
    answer together with the lines the loop has not read: [return True]
    leaves the rest of the file unread, falling out of the loop leaves
    nothing. *)
Fixpoint scan_lines (ls : list bytes) : bool * list bytes :=
  match ls with
  | [] => (false, [])
  | line :: rest =>
      if line_matches line then (true, rest) else scan_lines rest
  end.

(** [open(python_path, "rb")]: the bytes of the file, or no such file. *)
Definition filesystem := string -> option bytes.

Definition contains_vendored_imports (open_rb : filesystem) (python_path : string)
  : result bool :=
  match open_rb python_path with
  | None => Raise (OSError python_path)
  | Some python_src => Ok (fst (scan_lines (lines python_src)))
  end.

(** ** What the specification calls an exact line *)

#[global] Instance byte_eq_dec : EqDecision byte := Byte.byte_eq_dec.

(** [l], one of the lines the file iterates to, is the text [text] and its
    terminator, if it has one. *)
Definition is_line (text l : bytes) : Prop :=
  l = text \/ l = text ++ [LF] \/ l = text ++ [CR; LF].

Definition has_line (text content : bytes) : Prop :=
  Exists (is_line text) (lines content).

#[global] Instance is_line_dec text l : Decision (is_line text l).
Proof. unfold is_line. apply _. Defined.

#[global] Instance has_line_dec text content : Decision (has_line text content).
Proof. unfold has_line. apply _. Defined.

Definition line_from_import_requests : bytes :=
  lit "from botocore.vendored import requests".
Definition line_import_vendored : bytes := lit "import botocore.vendored".

(** ** Strings *)

Module Str.

(** [s.startswith(p)]. *)
Fixpoint startswith (p s : string) : bool :=
  match p, s with
  | "", _ => true
  | String _ _, "" => false
  | String a p', String b s' => Ascii.eqb a b && startswith p' s'
  end.

(** [s.startswith(ps)] for a tuple [ps] of prefixes. *)
Definition startswith_any (ps : list string) (s : string) : bool :=
  existsb (fun p => startswith p s) ps.

(** [s.endswith(suffix)]. *)
Fixpoint endswith (suffix s : string) : bool :=
  String.eqb suffix s
  || match s with
     | "" => false
     | String _ s' => endswith suffix s'
     end.

(** [needle in hay]. *)
Fixpoint contains (needle hay : string) : bool :=
  startswith needle hay
  || match hay with
     | "" => false
     | String _ hay' => contains needle hay'
     end.

(** [s.lower()] on ASCII letters. *)
Definition lower_ascii (c : ascii) : ascii :=
  let n := nat_of_ascii c in
  if (65 <=? n)%nat && (n <=? 90)%nat then ascii_of_nat (n + 32) else c.

Fixpoint lower (s : string) : string :=
  match s with
  | "" => ""
  | String c s' => String (lower_ascii c) (lower s')
  end.

(** [sep.join(parts)]. *)
Fixpoint join (sep : string) (parts : list string) : string :=
  match parts with
  | [] => ""
  | [x] => x
  | x :: rest => x +:+ sep +:+ join sep rest
  end.

(** [s.split("/")]. *)
Fixpoint split_slash (s : string) : list string :=
  match s with
  | "" => [""]
  | String c s' =>
      if Ascii.eqb c "/" then "" :: split_slash s'
      else match split_slash s' with
           | [] => [String c ""]
           | x :: xs => String c x :: xs
           end
  end.

End Str.

(** ** [os.path] on a POSIX system *)

Module posixpath.

(** [os.path.join(a, b)]. *)
Definition join (a b : string) : string :=
  if Str.startswith "/" b then b
  else if String.eqb a "" || Str.endswith "/" a then a +:+ b
  else a +:+ "/" +:+ b.

(** The components of [os.path.normpath(p)] for an absolute [p]: empty and
    ["."] components are dropped, [".."] removes the component before it. *)
Definition norm_step (stack : list string) (comp : string) : list string :=
  if String.eqb comp "" || String.eqb comp "." then stack
  else if String.eqb comp ".." then removelast stack
  else stack ++ [comp].

Definition components (p : string) : list string :=
  fold_left norm_step (Str.split_slash p) [].

(** [len(os.path.commonprefix([xs, ys]))] on lists of components. *)
Fixpoint common (xs ys : list string) : nat :=
  match xs, ys with
  | x :: xs', y :: ys' => if String.eqb x y then S (common xs' ys') else 0
  | _, _ => 0
  end.

(** [os.path.relpath(path, start)] for absolute [path] and [start]
    ([tempfile.mkdtemp] returns an absolute path, and [os.walk] yields
    directories below the one it is given). *)
Definition relpath (path start : string) : string :=
  let start_list := components start in
  let path_list := components path in
  let i := common start_list path_list in
  let rel_list := replicate (length start_list - i) ".." ++ drop i path_list in
  match rel_list with
  | [] => "."
  | _ => Str.join "/" rel_list
  end.

End posixpath.

(** ** The outside world *)

(** A function descriptor, as [list_functions] returns it: a [dict]. *)
Abbreviation descriptor := (gmap string string).

(** One page of the [list_functions] paginator. *)
Record page : Type := { Functions : list descriptor }.

(** The headers [urlretrieve] returns: an [email.message.Message]. *)
Abbreviation headers := (list (string * string)).

Record World : Type := {
  (** [lambda_client.get_paginator("list_functions").paginate()] *)
  paginate : list page;
  (** [lambda_client.get_function(FunctionName=n)["Code"]["Location"]] *)
  get_function : string -> result string;
  (** [urlretrieve(url)]: the local file name and the response headers *)
  urlretrieve : string -> result (string * headers);
  (** [tempfile.mkdtemp()], by the number of directories made before *)
  mkdtemp : nat -> string;
  (** [shutil.unpack_archive(filename, extract_dir, format)] *)
  unpack_archive : string -> string -> string -> result unit;
  (** [os.walk(root)]: [(dirpath, dirnames, filenames)] in directory order *)
  os_walk : string -> list (string * list string * list string);
  (** [open(path, "rb")] *)
  open_rb : filesystem;
  (** [os.path.relpath(path, start)] *)
  relpath : string -> string -> string
}.

(** [d[key]] *)
Definition getitem (d : descriptor) (key : string) : result string :=
  match d !! key with
  | Some v => Ok v
  | None => Raise (KeyError key)
  end.

(** [headers.get(name)]: header names compare case-insensitively, the first
    match wins, [None] when there is none. *)
Fixpoint headers_get (h : headers) (name : string) : option string :=
  match h with
  | [] => None
  | (k, v) :: rest =>
      if String.eqb (Str.lower k) (Str.lower name) then Some v
      else headers_get rest name
  end.

(** ** Effects: scratch-directory counter, trace, exceptions *)

Inductive event : Type :=
| EvGetFunction (function_name : string)
| EvUrlRetrieve (url : string)
| EvMkdtemp (dir : string)
| EvUnpack (filename extract_dir format : string)
| EvWalk (root : string)
| EvOpen (path : string)
| EvPrint (line : string).

Record Outcome (A : Type) : Type := mkOutcome {
  trace : list event;
  scratch : nat;
  value : result A
}.
Arguments mkOutcome {A} trace scratch value.
Arguments trace {A} o.
Arguments scratch {A} o.
Arguments value {A} o.

Definition M (A : Type) : Type := nat -> Outcome A.

Definition ret {A} (a : A) : M A := fun n => mkOutcome [] n (Ok a).

Definition bind {A B} (m : M A) (k : A -> M B) : M B := fun n =>
  let o := m n in
  match value o with
  | Ok a =>
      let o' := k a (scratch o) in
      mkOutcome (trace o ++ trace o') (scratch o') (value o')
  | Raise e => mkOutcome (trace o) (scratch o) (Raise e)
  end.

Definition raise {A} (e : exn) : M A := fun n => mkOutcome [] n (Raise e).

(** A call to the outside world: logged, then its result or exception. *)
Definition call {A} (ev : event) (r : result A) : M A :=
  fun n => mkOutcome [ev] n r.

Definition lift {A} (r : result A) : M A := fun n => mkOutcome [] n r.

Notation "x <- m ;; k" := (bind m (fun x => k))
  (at level 100, m at next level, right associativity).
Notation "m ;;; k" := (bind m (fun _ => k))
  (at level 100, right associativity).

(** What the run wrote to standard output, one entry per [print]. *)
Fixpoint stdout (t : list event) : list string :=
  match t with
  | [] => []
  | EvPrint line :: t' => line :: stdout t'
  | _ :: t' => stdout t'
  end.

(** ** The program *)

(** [get_all_functions] (lines 19-26): the pages, flattened. *)
Definition get_all_functions (w : World) : list descriptor :=
  flat_map Functions (paginate w).

(** The [RuntimeError] of lines 46-49, which the specification calls
    [UnsupportedPackageFormat]; ["%s" % None] prints as [None]. *)
Definition UnsupportedPackageFormat (function_name : string)
  (content_type : option string) : exn :=
  RuntimeError
    ("Unrecognised Content-Type in deployment package for " +:+ function_name
     +:+ ": " +:+ default "None" content_type).

Definition tempfile_mkdtemp (w : World) : M string := fun n =>
  mkOutcome [EvMkdtemp (mkdtemp w n)] (S n) (Ok (mkdtemp w n)).

(** [get_lambda_source_code] (lines 29-57). *)
Definition get_lambda_source_code (w : World) (function_name : string)
  : M string :=
  location <- call (EvGetFunction function_name) (get_function w function_name) ;;
  retrieved <- call (EvUrlRetrieve location) (urlretrieve w location) ;;
  let filename := fst retrieved in
  let content_type := headers_get (snd retrieved) "Content-Type" in
  archive_format <-
    (if bool_decide (content_type = Some "application/zip") then ret "zip"
     else raise (UnsupportedPackageFormat function_name content_type)) ;;
  working_dir <- tempfile_mkdtemp w ;;
  call (EvUnpack filename working_dir archive_format)
       (unpack_archive w filename working_dir archive_format) ;;;
  ret working_dir.

(** [find_python_paths] (lines 60-67), over what [os.walk] yields. *)
Definition find_python_paths
  (walk : list (string * list string * list string)) : list string :=
  flat_map
    (fun entry =>
       let dirpath := fst (fst entry) in
       let filenames := snd entry in
       map (posixpath.join dirpath) (filter (fun f => Str.endswith ".py" f) filenames))
    walk.

(** The two first-party prefixes of line 134. *)
Definition library_prefixes : list string := ["boto3/"; "botocore/"].

(** The loop of lines 128-141: [found] is [paths_with_vendored_imports]. *)
Fixpoint scan_paths (w : World) (source_code_dir : string)
  (python_paths : list string) (found : list string) : M (list string) :=
  match python_paths with
  | [] => ret found
  | python_path :: rest =>
      if Str.startswith_any library_prefixes (relpath w python_path source_code_dir)
      then scan_paths w source_code_dir rest found
      else
        hit <- call (EvOpen python_path)
                 (contains_vendored_imports (open_rb w) python_path) ;;
        if (hit : bool)
        then scan_paths w source_code_dir rest
               (found ++ [relpath w python_path source_code_dir])
        else scan_paths w source_code_dir rest found
  end.

(** [class bcolors] (lines 100-105). *)
Module bcolors.
Definition ESC : string := String (ascii_of_nat 27) "".
Definition OKGREEN : string := ESC +:+ "[92m".
Definition FAIL : string := ESC +:+ "[91m".
Definition ENDC : string := ESC +:+ "[0m".
Definition UNDERLINE : string := ESC +:+ "[4m".
End bcolors.

Definition pretty_function_name (function_name : string) : string :=
  bcolors.UNDERLINE +:+ function_name +:+ bcolors.ENDC.

Definition print (line : string) : M unit := call (EvPrint line) (Ok tt).

Definition fail_banner (function_name : string) : string :=
  "[" +:+ bcolors.FAIL +:+ "FAIL" +:+ bcolors.ENDC
  +:+ "] Vendored imports detected in "
  +:+ pretty_function_name function_name +:+ ":".

Definition ok_banner (function_name : string) : string :=
  "[ " +:+ bcolors.OKGREEN +:+ "OK" +:+ bcolors.ENDC
  +:+ " ] No vendored imports in " +:+ pretty_function_name function_name.

Definition finding_line (path : string) : string := "       - " +:+ path.

(** [sorted(xs)] on a list of [str]: ascending in the lexicographic order of
    the characters. *)
Definition sorted (xs : list string) : list string := merge_sort String.le xs.

Fixpoint print_all (ls : list string) : M unit :=
  match ls with
  | [] => ret tt
  | l :: rest => print l ;;; print_all rest
  end.

(** Lines 143-155; an empty list is falsy. *)
Definition report (function_name : string)
  (paths_with_vendored_imports : list string) : M unit :=
  match paths_with_vendored_imports with
  | _ :: _ =>
      print (fail_banner function_name) ;;;
      print_all (map finding_line (sorted paths_with_vendored_imports))
  | [] => print (ok_banner function_name)
  end.

(** Lines 124-155 for one unpacked package whose walk yielded
    [python_paths]. *)
Definition audit_package (w : World) (function_name source_code_dir : string)
  (python_paths : list string) : M unit :=
  found <- scan_paths w source_code_dir python_paths [] ;;
  report function_name found.

(** The body of the loop of line 115. *)
Definition process_function (w : World) (lambda_function : descriptor)
  : M unit :=
  runtime <- lift (getitem lambda_function "Runtime") ;;
  if negb (Str.contains "python" runtime) then ret tt
  else
    function_name <- lift (getitem lambda_function "FunctionName") ;;
    source_code_dir <- get_lambda_source_code w function_name ;;
    python_paths <-
      call (EvWalk source_code_dir)
           (Ok (find_python_paths (os_walk w source_code_dir))) ;;
    audit_package w function_name source_code_dir python_paths.

Fixpoint for_each_function (w : World) (fs : list descriptor) : M unit :=
  match fs with
  | [] => ret tt
  | lambda_function :: rest =>
      process_function w lambda_function ;;; for_each_function w rest
  end.

(** The main program (lines 112-155), started with no scratch directory. *)
Definition main (w : World) : Outcome unit :=
  for_each_function w (get_all_functions w) 0.

(** ** A small account to run the program on *)

Module Demo.

Definition line (s : string) : bytes := lit s ++ [LF].

Definition handler_py : bytes :=
  line "import json" ++ line "import os"
  ++ line "from botocore.vendored import requests"
  ++ line "def handler(event, context): return requests.get(event)".

Definition app_py : bytes := line "import json" ++ lit "print(json.dumps({}))".

Definition helper_py : bytes := line "import botocore.vendored".

(** Latin-1 text, not valid UTF-8, with the import inside a comment. *)
Definition legacy_py : bytes :=
  [xe9; xff; LF] ++ line "# we no longer import botocore.vendored here".

(** A from-import of another vendored module. *)
Definition six_py : bytes :=
  line "import json" ++ line "from botocore.vendored import six".

(** The whole-module spelling, inside a comment only. *)
Definition comment_py : bytes :=
  line "import json" ++ line "# TODO: do not import botocore.vendored".

Definition resize : descriptor :=
  {[ "FunctionName" := "resize"; "Runtime" := "nodejs18.x" ]}.
Definition audit : descriptor :=
  {[ "FunctionName" := "audit"; "Runtime" := "python3.9" ]}.
Definition tarball : descriptor :=
  {[ "FunctionName" := "tarball"; "Runtime" := "python3.8" ]}.
Definition bare : descriptor :=
  {[ "FunctionName" := "bare"; "Runtime" := "python3.8" ]}.

Definition url_of (function_name : string) : string :=
  "https://lambda.example/" +:+ function_name.

Definition demo_urlretrieve (url : string) : result (string * headers) :=
  if String.eqb url (url_of "tarball")
  then Ok ("/tmp/tmpa", [("content-type", "application/x-tar")])
  else if String.eqb url (url_of "bare")
  then Ok ("/tmp/tmpb", [("Content-Length", "12")])
  else Ok ("/tmp/tmpc", [("Content-Length", "12"); ("Content-Type", "application/zip")]).

Definition demo_mkdtemp (n : nat) : string :=
  "/tmp/tmp" +:+ String (ascii_of_nat (48 + n)) "".

Definition demo_walk (root : string)
  : list (string * list string * list string) :=
  [ (root, ["boto3"; "lib"], ["legacy.py"; "handler.py"; "README.md"; "app.py"]);
    (root +:+ "/boto3", [], ["vendored_helper.py"]);
    (root +:+ "/lib", [], []) ].

Definition demo_open (path : string) : option bytes :=
  if Str.endswith "/handler.py" path then Some handler_py
  else if Str.endswith "/app.py" path then Some app_py
  else if Str.endswith "/vendored_helper.py" path then Some helper_py
  else if Str.endswith "/legacy.py" path then Some legacy_py
  else None.

Definition world (pages : list page) : World := {|
  paginate := pages;
  get_function := fun n => Ok (url_of n);
  urlretrieve := demo_urlretrieve;
  mkdtemp := demo_mkdtemp;
  unpack_archive := fun _ _ _ => Ok tt;
  os_walk := demo_walk;
  open_rb := demo_open;
  relpath := posixpath.relpath
|}.

End Demo.

(** ** The loop of lines 128-141, read as a filter *)

(** The test of lines 133-135. *)
Definition excluded (w : World) (source_code_dir python_path : string) : bool :=
  Str.startswith_any library_prefixes (relpath w python_path source_code_dir).

(** The paths the loop hands to the classifier. *)
Definition candidates (w : World) (source_code_dir : string)
  (python_paths : list string) : list string :=
  filter (fun p => excluded w source_code_dir p = false) python_paths.

Definition flagged (w : World) (python_path : string) : bool :=
  match contains_vendored_imports (open_rb w) python_path with
  | Ok b => b
  | Raise _ => false
  end.

Definition findings (w : World) (source_code_dir : string)
  (python_paths : list string) : list string :=
  map (fun p => relpath w p source_code_dir)
    (filter (fun p => flagged w p = true)
       (candidates w source_code_dir python_paths)).

(** ** Readings of a run *)

(** The scratch directories a trace made, oldest first. *)
Fixpoint mkdtemps (t : list event) : list string :=
  match t with
  | [] => []
  | EvMkdtemp dir :: t' => dir :: mkdtemps t'
  | _ :: t' => mkdtemps t'
  end.

(** The test of line 119 on a descriptor; one with no [Runtime] never gets
    past that line. *)
Definition is_python (f : descriptor) : bool :=
  match f !! "Runtime" with
  | Some runtime => Str.contains "python" runtime
  | None => false
  end.

(** What lines 143-155 print for a function with these findings. *)
Definition report_lines (function_name : string) (found : list string)
  : list string :=
  match found with
  | [] => [ok_banner function_name]
  | _ :: _ => fail_banner function_name :: map finding_line (sorted found)
  end.

(** * Properties *)

(** ** Bytes and lines *)

Section BytesFacts.

Implicit Types (needle hay s l : bytes) (ls : list bytes).

Lemma startswith_app needle s : startswith needle (needle ++ s) = true.
Proof.
  induction needle as [|a needle IH]; simpl; [done|].
  by rewrite Byte.byte_dec_lb, IH.
Qed.

Lemma startswith_inv needle hay :
  startswith needle hay = true -> exists post, hay = needle ++ post.
Proof.
  revert hay. induction needle as [|a needle IH]; intros [|b hay]; simpl;
    try done; [by exists [] | by eexists | ].
  intros [Hab Hrest]%andb_prop. apply Byte.byte_dec_bl in Hab as ->.
  destruct (IH _ Hrest) as [post ->]. by exists post.
Qed.

Lemma contains_cons needle b hay :
  contains needle hay = true -> contains needle (b :: hay) = true.
Proof. intros H. simpl. rewrite H. apply orb_true_r. Qed.

Lemma contains_here needle hay :
  startswith needle hay = true -> contains needle hay = true.
Proof. intros H. destruct hay; simpl; rewrite H; done. Qed.

(** [needle in hay] holds exactly when [needle] occurs in [hay]. *)
Lemma contains_spec needle hay :
  contains needle hay = true <-> exists pre post, hay = pre ++ needle ++ post.
Proof.
  split.
  - induction hay as [|b hay IH]; simpl.
    + rewrite orb_false_r. intros [post ->]%startswith_inv. by exists [], post.
    + intros [H|H]%orb_prop.
      * apply startswith_inv in H as [post ->]. by exists [], post.
      * destruct (IH H) as (pre & post & ->). by exists (b :: pre), post.
  - intros (pre & post & ->). induction pre as [|b pre IH]; simpl.
    + apply contains_here, startswith_app.
    + by apply contains_cons.
Qed.

Lemma concat_lines s : concat (lines s) = s.
Proof.
  induction s as [|b s IH]; simpl; [done|].
  destruct (Byte.eqb b LF); simpl; [by rewrite IH|].
  destruct (lines s) as [|l ls]; simpl in *; by rewrite <- IH.
Qed.

(** A match that starts at the head of the content lies in its first line,
    when the needle has no line feed in it. *)
Lemma startswith_first_line needle hay :
  needle <> [] -> LF ∉ needle -> startswith needle hay = true ->
  exists l ls, lines hay = l :: ls /\ startswith needle l = true.
Proof.
  revert hay. induction needle as [|a needle IH]; [done|].
  intros [|b hay] _ Hlf; simpl; [done|].
  intros [Hab Hrest]%andb_prop. apply Byte.byte_dec_bl in Hab as <-.
  assert (Byte.eqb a LF = false) as ->.
  { destruct (Byte.eqb a LF) eqn:E; [|done].
    apply Byte.byte_dec_bl in E as ->. exfalso. apply Hlf. by left. }
  destruct needle as [|a' needle].
  - destruct (lines hay) as [|l ls]; eexists _, _; split; try done;
      simpl; by rewrite Byte.byte_dec_lb.
  - destruct (IH hay) as (l & ls & -> & Hl); [done| |done|].
    { intros ?. apply Hlf. by right. }
    exists (a :: l), ls. split; [done|].
    change (Byte.eqb a a && startswith (a' :: needle) l = true).
    by rewrite Byte.byte_dec_lb.
Qed.

(** Cutting the content into lines loses no occurrence of such a needle. *)
Lemma contains_some_line needle hay :
  needle <> [] -> LF ∉ needle -> contains needle hay = true ->
  Exists (fun l => contains needle l = true) (lines hay).
Proof.
  intros Hne Hlf. induction hay as [|b hay IH].
  - simpl. rewrite orb_false_r. intros H. destruct needle; done.
  - intros [H|H]%orb_prop.
    + destruct (startswith_first_line _ _ Hne Hlf H) as (l & ls & -> & Hl).
      left. by apply contains_here.
    + specialize (IH H). simpl. destruct (Byte.eqb b LF); [by right|].
      destruct (lines hay) as [|l ls]; [by apply Exists_nil in IH|].
      apply Exists_cons in IH as [Hl|Hls]; [left | by right].
      by apply contains_cons.
Qed.

Lemma line_in_content needle hay :
  Exists (fun l => contains needle l = true) (lines hay) ->
  contains needle hay = true.
Proof.
  rewrite <- (concat_lines hay) at 2.
  induction 1 as [l ls Hl | l ls _ IH]; simpl; apply contains_spec.
  - apply contains_spec in Hl as (pre & post & ->).
    exists pre, (post ++ concat ls). by rewrite <- !app_assoc.
  - apply contains_spec in IH as (pre & post & ->).
    exists (l ++ pre), post. by rewrite <- !app_assoc.
Qed.

Lemma scan_lines_true ls :
  fst (scan_lines ls) = true <-> Exists (fun l => line_matches l = true) ls.
Proof.
  induction ls as [|l ls IH]; simpl.
  - split; [done | by intros ?%Exists_nil].
  - destruct (line_matches l) eqn:E; simpl.
    + split; [by left | done].
    + rewrite IH, Exists_cons. split; [by right | by intros [?|?]; [congruence|]].
Qed.

Lemma scan_lines_false ls :
  Forall (fun l => line_matches l = false) ls -> scan_lines ls = (false, []).
Proof. induction 1 as [|l ls Hl _ IH]; simpl; [done | by rewrite Hl]. Qed.

Lemma needle_import_no_LF : needle_import <> [] /\ LF ∉ needle_import.
Proof.
  split; [done|]. rewrite list_elem_of_In. vm_compute. intuition discriminate.
Qed.

Lemma needle_from_no_LF : needle_from <> [] /\ LF ∉ needle_from.
Proof.
  split; [done|]. rewrite list_elem_of_In. vm_compute. intuition discriminate.
Qed.

(** The classifier answers [True] exactly on the files in which one of the
    two needles occurs. *)
Lemma scan_lines_content s :
  fst (scan_lines (lines s))
  = contains needle_import s || contains needle_from s.
Proof.
  apply eq_true_iff_eq. rewrite scan_lines_true, orb_true_iff. split.
  - intros H. apply Exists_exists in H as (l & Hin & [Hl|Hl]%orb_prop);
      [left|right]; apply line_in_content, Exists_exists; eauto.
  - intros [H|H].
    + apply contains_some_line in H; [|apply needle_import_no_LF..].
      eapply Exists_impl; [done|]. intros l Hl. unfold line_matches.
      by rewrite Hl.
    + apply contains_some_line in H; [|apply needle_from_no_LF..].
      eapply Exists_impl; [done|]. intros l Hl. unfold line_matches.
      rewrite Hl. apply orb_true_r.
Qed.

End BytesFacts.

(** ** The import classifier *)

Lemma classify_content (open_rb : filesystem) path content :
  open_rb path = Some content ->
  contains_vendored_imports open_rb path
  = Ok (contains needle_import content || contains needle_from content).
Proof.
  intros H. unfold contains_vendored_imports. rewrite H.
  by rewrite scan_lines_content.
Qed.

Lemma is_line_from_matches l :
  is_line line_from_import_requests l -> line_matches l = true.
Proof. by intros [->|[->| ->]]; vm_compute. Qed.

Lemma is_line_import_matches l :
  is_line line_import_vendored l -> line_matches l = true.
Proof. by intros [->|[->| ->]]; vm_compute. Qed.

(** C1. A source file one of whose lines is exactly
    [from botocore.vendored import requests], or exactly
    [import botocore.vendored], is classified [True]. *)
Theorem C1_exact_import_line_is_flagged (open_rb : filesystem) path content :
  open_rb path = Some content ->
  has_line line_from_import_requests content
  \/ has_line line_import_vendored content ->
  contains_vendored_imports open_rb path = Ok true.
Proof.
  intros Hopen Hline. unfold contains_vendored_imports. rewrite Hopen.
  f_equal. apply scan_lines_true.
  destruct Hline as [H|H]; (eapply Exists_impl; [exact H|]).
  - apply is_line_from_matches.
  - apply is_line_import_matches.
Qed.

Lemma C1_witness :
  Demo.demo_open "/tmp/tmp0/handler.py" = Some Demo.handler_py
  /\ has_line line_from_import_requests Demo.handler_py
  /\ contains_vendored_imports Demo.demo_open "/tmp/tmp0/handler.py" = Ok true.
Proof.
  assert (has_line line_from_import_requests Demo.handler_py) as H.
  { apply (bool_decide_unpack _). vm_compute. exact I. }
  split; [reflexivity|]. split; [exact H|].
  apply (C1_exact_import_line_is_flagged _ _ Demo.handler_py);
    [reflexivity | left; exact H].
Defined.

(** C2, as the specification words it, fails: no line of [six.py] is exactly
    one of the two import lines, and the classifier still answers [True]. *)
Lemma C2_counterexample :
  ~ has_line line_from_import_requests Demo.six_py
  /\ ~ has_line line_import_vendored Demo.six_py
  /\ contains_vendored_imports (fun _ => Some Demo.six_py) "six.py" = Ok true.
Proof.
  split; [|split].
  - apply (bool_decide_unpack _). vm_compute. exact I.
  - apply (bool_decide_unpack _). vm_compute. exact I.
  - vm_compute. reflexivity.
Qed.

(** C2, amended. A file none of whose lines contains the bytes
    [import botocore.vendored] or [from botocore.vendored import ] is
    classified [False], and the loop has then read every line: nothing is
    left unread, and the lines read make up the whole content. *)
Theorem C2_no_matching_line_reads_all (open_rb : filesystem) path content :
  open_rb path = Some content ->
  Forall (fun l => line_matches l = false) (lines content) ->
  contains_vendored_imports open_rb path = Ok false
  /\ scan_lines (lines content) = (false, [])
  /\ concat (lines content) = content.
Proof.
  intros Hopen Hnone. unfold contains_vendored_imports. rewrite Hopen.
  rewrite (scan_lines_false _ Hnone). split; [done|]. split; [done|].
  apply concat_lines.
Qed.

Lemma C2_witness :
  Demo.demo_open "/tmp/tmp0/app.py" = Some Demo.app_py
  /\ Forall (fun l => line_matches l = false) (lines Demo.app_py)
  /\ contains_vendored_imports Demo.demo_open "/tmp/tmp0/app.py" = Ok false
  /\ scan_lines (lines Demo.app_py) = (false, [])
  /\ concat (lines Demo.app_py) = Demo.app_py.
Proof.
  assert (Forall (fun l => line_matches l = false) (lines Demo.app_py)) as H.
  { apply (bool_decide_unpack _). vm_compute. exact I. }
  split; [reflexivity|]. split; [exact H|].
  apply (C2_no_matching_line_reads_all _ "/tmp/tmp0/app.py" Demo.app_py);
    [reflexivity | exact H].
Defined.

(** C7. Whatever bytes a file holds, valid UTF-8 or not, classifying it
    returns a boolean: the content is matched as bytes and never decoded, so
    the only exception the classifier can raise is that of [open]. *)
Theorem C7_any_bytes_classified (open_rb : filesystem) path content :
  open_rb path = Some content ->
  exists b, contains_vendored_imports open_rb path = Ok b.
Proof. intros H. eexists. by apply classify_content. Qed.

Lemma C7_witness :
  Demo.demo_open "/tmp/tmp0/legacy.py" = Some Demo.legacy_py
  /\ exists b, contains_vendored_imports Demo.demo_open "/tmp/tmp0/legacy.py" = Ok b.
Proof.
  split; [reflexivity|].
  apply (C7_any_bytes_classified _ _ Demo.legacy_py). reflexivity.
Defined.

(** C9. Matching is by substring: a file in which the bytes
    [import botocore.vendored] occur anywhere is classified [True]; so is
    [comment.py], where they occur in a comment only and no line is an
    import of the vendored package. *)
Theorem C9_substring_match_in_comment :
  (forall pre post path,
      contains_vendored_imports
        (fun _ => Some (pre ++ needle_import ++ post)) path = Ok true)
  /\ Forall (fun l => contains needle_import l = true ->
                      startswith (lit "#") l = true) (lines Demo.comment_py)
  /\ ~ has_line line_import_vendored Demo.comment_py
  /\ ~ has_line line_from_import_requests Demo.comment_py
  /\ contains_vendored_imports (fun _ => Some Demo.comment_py) "comment.py"
     = Ok true.
Proof.
  split; [|split; [|split; [|split]]].
  - intros pre post path. erewrite classify_content; [|done].
    f_equal. apply orb_true_iff. left. apply contains_spec. eauto.
  - vm_compute lines. repeat constructor; by vm_compute.
  - apply (bool_decide_unpack _). vm_compute. exact I.
  - apply (bool_decide_unpack _). vm_compute. exact I.
  - vm_compute. reflexivity.
Qed.

(** ** The monad *)

Lemma outcome_eta {A} (o : Outcome A) :
  mkOutcome (trace o) (scratch o) (value o) = o.
Proof. by destruct o. Qed.

Section MonadFacts.

Context {A B C : Type}.

Lemma bind_ret_l (a : A) (k : A -> M B) n : bind (ret a) k n = k a n.
Proof. unfold bind, ret. simpl. apply outcome_eta. Qed.

Lemma bind_assoc (m : M A) (k : A -> M B) (h : B -> M C) n :
  bind (bind m k) h n = bind m (fun a => bind (k a) h) n.
Proof.
  unfold bind. simpl. destruct (value (m n)) as [a|e]; simpl; [|done].
  destruct (value (k a (scratch (m n)))) as [b|e]; simpl; [|done].
  by rewrite app_assoc.
Qed.

Lemma bind_ok (m : M A) (k : A -> M B) n t n' a :
  m n = mkOutcome t n' (Ok a) ->
  bind m k n
  = mkOutcome (t ++ trace (k a n')) (scratch (k a n')) (value (k a n')).
Proof. intros H. unfold bind. by rewrite H. Qed.

Lemma bind_raise (m : M A) (k : A -> M B) n t n' e :
  m n = mkOutcome t n' (Raise e) -> bind m k n = mkOutcome t n' (Raise e).
Proof. intros H. unfold bind. by rewrite H. Qed.

End MonadFacts.

Lemma stdout_app t1 t2 : stdout (t1 ++ t2) = stdout t1 ++ stdout t2.
Proof.
  induction t1 as [|ev t1 IH]; simpl; [done|].
  destruct ev; simpl; by rewrite ?IH.
Qed.

Lemma stdout_opens paths : stdout (map EvOpen paths) = [].
Proof. by induction paths. Qed.

(** ** The scan of one package *)

Section ScanFacts.

Context (w : World) (root : string).

Lemma classify_is_Some p :
  is_Some (open_rb w p) ->
  contains_vendored_imports (open_rb w) p = Ok (flagged w p).
Proof.
  intros [content H]. unfold flagged, contains_vendored_imports. by rewrite H.
Qed.

Lemma classify_None p :
  open_rb w p = None ->
  contains_vendored_imports (open_rb w) p = Raise (OSError p).
Proof. intros H. unfold contains_vendored_imports. by rewrite H. Qed.

(** When every file handed to the classifier can be opened, the loop opens
    the candidates in order and collects the flagged ones. *)
Lemma scan_paths_ok paths found n :
  Forall (fun p => is_Some (open_rb w p)) (candidates w root paths) ->
  scan_paths w root paths found n
  = mkOutcome (map EvOpen (candidates w root paths)) n
      (Ok (found ++ findings w root paths)).
Proof.
  revert found. unfold findings, candidates.
  induction paths as [|p paths IH]; intros found Hopen.
  { simpl. by rewrite app_nil_r. }
  cbn [scan_paths]. fold (excluded w root p).
  rewrite filter_cons in Hopen |- *.
  destruct (decide (excluded w root p = false)) as [Hk|Hk].
  - rewrite Hk. apply Forall_cons in Hopen as [Hp Hrest].
    unfold bind, call. simpl. rewrite (classify_is_Some _ Hp). simpl.
    rewrite filter_cons.
    destruct (flagged w p) eqn:Hf; simpl; rewrite IH by done; simpl.
    + by rewrite <- app_assoc.
    + done.
  - apply not_false_is_true in Hk. rewrite Hk. by apply IH.
Qed.

(** When one of them cannot, the loop raises, having printed nothing. *)
Lemma scan_paths_raise paths found n :
  Exists (fun p => open_rb w p = None) (candidates w root paths) ->
  exists t e,
    scan_paths w root paths found n = mkOutcome t n (Raise e) /\ stdout t = [].
Proof.
  revert found. unfold candidates.
  induction paths as [|p paths IH]; intros found Hbad.
  { by apply Exists_nil in Hbad. }
  cbn [scan_paths]. fold (excluded w root p).
  rewrite filter_cons in Hbad.
  destruct (decide (excluded w root p = false)) as [Hk|Hk].
  - rewrite Hk. unfold bind, call. simpl.
    destruct (open_rb w p) as [content|] eqn:Hp.
    + apply Exists_cons in Hbad as [Hbad|Hbad]; [congruence|].
      rewrite (classify_is_Some p) by (rewrite Hp; eauto). simpl.
      destruct (flagged w p);
        [ destruct (IH (found ++ [relpath w p root]) Hbad) as (t & e & -> & Ht)
        | destruct (IH found Hbad) as (t & e & -> & Ht) ];
        simpl; by exists (EvOpen p :: t), e.
    + rewrite (classify_None _ Hp). simpl. by exists [EvOpen p], (OSError p).
  - apply not_false_is_true in Hk. rewrite Hk. by apply IH.
Qed.

Lemma candidates_openable_dec paths :
  Forall (fun p => is_Some (open_rb w p)) (candidates w root paths)
  \/ Exists (fun p => open_rb w p = None) (candidates w root paths).
Proof.
  induction (candidates w root paths) as [|p ps IH]; [by left|].
  destruct (open_rb w p) as [content|] eqn:Hp.
  - destruct IH as [IH|IH]; [left | right; by right].
    constructor; [rewrite Hp; eauto | done].
  - right. by left.
Qed.

Lemma candidates_perm paths paths' :
  paths ≡ₚ paths' -> candidates w root paths ≡ₚ candidates w root paths'.
Proof. intros H. unfold candidates. by rewrite H. Qed.

Lemma findings_perm paths paths' :
  paths ≡ₚ paths' -> findings w root paths ≡ₚ findings w root paths'.
Proof. intros H. unfold findings. by rewrite (candidates_perm _ _ H). Qed.

End ScanFacts.

Section PackageFacts.

Context (w : World) (root : string).

Lemma scan_paths_trace paths found n ev :
  ev ∈ trace (scan_paths w root paths found n) ->
  exists q, ev = EvOpen q /\ q ∈ paths /\ excluded w root q = false.
Proof.
  revert found. induction paths as [|p paths IH]; intros found.
  { simpl. by intros ?%elem_of_nil. }
  cbn [scan_paths]. fold (excluded w root p).
  destruct (excluded w root p) eqn:Hk.
  - intros (q & ? & ? & ?)%IH. exists q. by rewrite elem_of_cons; auto.
  - unfold bind, call. simpl.
    destruct (contains_vendored_imports (open_rb w) p) as [[|]|e]; simpl.
    + intros [->|(q & ? & ? & ?)%IH]%elem_of_cons.
      * exists p. by rewrite elem_of_cons; auto.
      * exists q. by rewrite elem_of_cons; auto.
    + intros [->|(q & ? & ? & ?)%IH]%elem_of_cons.
      * exists p. by rewrite elem_of_cons; auto.
      * exists q. by rewrite elem_of_cons; auto.
    + intros ->%list_elem_of_singleton. exists p.
      by rewrite elem_of_cons; auto.
Qed.

Lemma scan_paths_value paths n found :
  value (scan_paths w root paths [] n) = Ok found ->
  found = findings w root paths.
Proof.
  destruct (candidates_openable_dec w root paths) as [H|H].
  - rewrite (scan_paths_ok _ _ _ [] n H). simpl. congruence.
  - destruct (scan_paths_raise _ _ _ [] n H) as (t & e & -> & _). done.
Qed.

Lemma findings_not_excluded paths r :
  r ∈ findings w root paths -> Str.startswith_any library_prefixes r = false.
Proof.
  unfold findings, candidates.
  intros (q & -> & Hq)%list_elem_of_fmap.
  by apply list_elem_of_filter in Hq as [_ [Hq _]%list_elem_of_filter].
Qed.

End PackageFacts.

(** C3. A file whose path relative to the scratch root starts with [boto3/]
    or [botocore/] is never opened by the scan of the package and never among
    its findings, whatever the file holds. *)
Theorem C3_library_files_are_not_findings (w : World) root paths n p :
  Str.startswith_any library_prefixes (relpath w p root) = true ->
  (EvOpen p ∉ trace (scan_paths w root paths [] n))
  /\ (forall found,
      value (scan_paths w root paths [] n) = Ok found ->
      relpath w p root ∉ found).
Proof.
  intros Hp. split.
  - intros (q & [= <-] & _ & Hq)%scan_paths_trace.
    unfold excluded in Hq. congruence.
  - intros found ->%scan_paths_value Hin%findings_not_excluded. congruence.
Qed.

Lemma C3_witness :
  let w := Demo.world [] in
  let root := "/tmp/tmp0" in
  let p := "/tmp/tmp0/boto3/vendored_helper.py" in
  let paths := find_python_paths (os_walk w root) in
  p ∈ paths
  /\ flagged w p = true
  /\ Str.startswith_any library_prefixes (relpath w p root) = true
  /\ (EvOpen p ∉ trace (scan_paths w root paths [] 1))
  /\ (forall found,
      value (scan_paths w root paths [] 1) = Ok found ->
      relpath w p root ∉ found).
Proof.
  intros w root p paths.
  split; [apply (bool_decide_unpack _); vm_compute; exact I|].
  split; [vm_compute; reflexivity|].
  split; [vm_compute; reflexivity|].
  apply (C3_library_files_are_not_findings w root paths 1 p).
  vm_compute; reflexivity.
Defined.

(** ** The report *)

Lemma print_all_run ls n : print_all ls n = mkOutcome (map EvPrint ls) n (Ok tt).
Proof.
  induction ls as [|l ls IH]; [done|].
  cbn [print_all]. unfold bind, print, call. simpl. by rewrite IH.
Qed.

Lemma stdout_prints ls : stdout (map EvPrint ls) = ls.
Proof. induction ls as [|l ls IH]; simpl; by rewrite ?IH. Qed.

Lemma report_stdout function_name found n :
  stdout (trace (report function_name found n))
  = match found with
    | [] => [ok_banner function_name]
    | _ :: _ => fail_banner function_name :: map finding_line (sorted found)
    end.
Proof.
  destruct found as [|r found]; [done|].
  unfold report, bind, print, call. simpl. rewrite print_all_run. simpl.
  by rewrite stdout_prints.
Qed.

(** ** The order [sorted] uses *)

(** [String.le] is the lexicographic order on the character codes: the empty
    string comes first, and two non-empty strings compare by their first
    characters, then by what follows. *)
Lemma str_le_lexicographic :
  (forall t, String.le "" t)
  /\ (forall a s, ~ String.le (String a s) "")
  /\ (forall a s b t,
        String.le (String a s) (String b t)
        <-> (nat_of_ascii a < nat_of_ascii b)%nat \/ (a = b /\ String.le s t)).
Proof.
  split; [|split].
  - by intros [|b t].
  - intros a s H. exact H.
  - intros a s b t. unfold String.le, String.leb. simpl.
    unfold Ascii.compare, nat_of_ascii.
    destruct (N.compare_spec (N_of_ascii a) (N_of_ascii b)) as [E|E|E].
    + assert (a = b) as ->.
      { by rewrite <- (ascii_N_embedding a), E, ascii_N_embedding. }
      split; [by right | intros [?|[_ ?]]; [lia | done]].
    + split; [left; lia | done].
    + split; [done|]. intros [?|[-> _]]; lia.
Qed.

Lemma sorted_Sorted xs : Sorted String.le (sorted xs).
Proof. apply Sorted_merge_sort, _. Qed.

Lemma sorted_perm xs : sorted xs ≡ₚ xs.
Proof. apply merge_sort_Permutation. Qed.

(** [sorted] does not depend on the order of its argument. *)
Lemma sorted_unique xs ys : xs ≡ₚ ys -> sorted xs = sorted ys.
Proof.
  intros H. apply (Sorted_unique String.le); try apply sorted_Sorted.
  by rewrite !sorted_perm.
Qed.

Lemma audit_package_stdout (w : World) function_name root paths n :
  stdout (trace (audit_package w function_name root paths n))
  = if bool_decide (Forall (fun p => is_Some (open_rb w p))
                      (candidates w root paths))
    then stdout (trace (report function_name (findings w root paths) n))
    else [].
Proof.
  unfold audit_package. case_bool_decide as H.
  - erewrite bind_ok by apply (scan_paths_ok _ _ _ [] n H). simpl.
    by rewrite stdout_app, stdout_opens.
  - destruct (candidates_openable_dec w root paths) as [H'|H']; [done|].
    destruct (scan_paths_raise _ _ _ [] n H') as (t & e & Hrun & Ht).
    by erewrite bind_raise by exact Hrun.
Qed.

(** C4. When a function has findings, they are printed under the failure
    banner in ascending lexicographic order; and what is printed for a
    package is the same for every order in which the walk yields its
    files. *)
Theorem C4_findings_sorted_any_walk_order (w : World) function_name root
    paths paths' n :
  paths ≡ₚ paths' ->
  stdout (trace (audit_package w function_name root paths n))
  = stdout (trace (audit_package w function_name root paths' n))
  /\ (forall found,
      value (scan_paths w root paths [] n) = Ok found -> found <> [] ->
      stdout (trace (audit_package w function_name root paths n))
      = fail_banner function_name :: map finding_line (sorted found)
      /\ Sorted String.le (sorted found)
      /\ sorted found ≡ₚ found).
Proof.
  intros Hperm. split.
  - rewrite !audit_package_stdout.
    pose proof (candidates_perm w root _ _ Hperm) as Hc.
    pose proof (findings_perm w root _ _ Hperm) as Hf.
    rewrite !report_stdout.
    assert (bool_decide (Forall (fun p => is_Some (open_rb w p))
                           (candidates w root paths))
            = bool_decide (Forall (fun p => is_Some (open_rb w p))
                             (candidates w root paths'))) as ->.
    { apply bool_decide_ext. by rewrite Hc. }
    case_bool_decide; [|done].
    destruct (findings w root paths) as [|r rs] eqn:E1.
    + apply Permutation_nil_l in Hf. by rewrite <- Hf.
    + destruct (findings w root paths') as [|r' rs'] eqn:E2.
      { by apply Permutation_nil_r in Hf. }
      by rewrite (sorted_unique _ _ Hf).
  - intros found Hval Hne. split; [|split].
    + rewrite audit_package_stdout.
      destruct (candidates_openable_dec w root paths) as [H|H].
      * rewrite bool_decide_eq_true_2 by done. rewrite report_stdout.
        apply scan_paths_value in Hval as <-. by destruct found.
      * destruct (scan_paths_raise _ _ _ [] n H) as (t & e & Hrun & _).
        rewrite Hrun in Hval. simpl in Hval. discriminate.
    + apply sorted_Sorted.
    + apply sorted_perm.
Qed.

Lemma C4_witness :
  let w := Demo.world [] in
  let root := "/tmp/tmp0" in
  let paths := find_python_paths (os_walk w root) in
  reverse paths <> paths
  /\ stdout (trace (audit_package w "audit" root paths 1))
     = stdout (trace (audit_package w "audit" root (reverse paths) 1))
  /\ (forall found,
      value (scan_paths w root paths [] 1) = Ok found -> found <> [] ->
      stdout (trace (audit_package w "audit" root paths 1))
      = fail_banner "audit" :: map finding_line (sorted found)
      /\ Sorted String.le (sorted found)
      /\ sorted found ≡ₚ found).
Proof.
  intros w root paths. split; [vm_compute; discriminate|].
  apply (C4_findings_sorted_any_walk_order w "audit" root paths (reverse paths) 1).
  symmetry. apply reverse_Permutation.
Defined.

(** ** The loop over the functions *)

Lemma bind_ext {A B} (m : M A) (k k' : A -> M B) n :
  (forall a n', k a n' = k' a n') -> bind m k n = bind m k' n.
Proof. intros H. unfold bind. destruct (value (m n)); [by rewrite H | done]. Qed.

Lemma bind_lift_ok {A B} (a : A) (k : A -> M B) n :
  bind (lift (Ok a)) k n = k a n.
Proof. apply (bind_ret_l a k n). Qed.

Lemma for_each_function_app (w : World) fs gs n :
  for_each_function w (fs ++ gs) n
  = (for_each_function w fs ;;; for_each_function w gs) n.
Proof.
  revert n. induction fs as [|f fs IH]; intros n.
  - simpl. by rewrite bind_ret_l.
  - simpl. rewrite bind_assoc. apply bind_ext. intros _ n'. apply IH.
Qed.

Lemma process_function_skips (w : World) f runtime n :
  f !! "Runtime" = Some runtime ->
  Str.contains "python" runtime = false ->
  process_function w f n = mkOutcome [] n (Ok tt).
Proof.
  intros Hr Hpy. unfold process_function, getitem. rewrite Hr.
  unfold bind, lift. simpl. by rewrite Hpy.
Qed.

(** C5. A function whose runtime label does not contain [python] costs the
    run nothing: processing it calls nothing outside (no [get_function], no
    download, no file opened, nothing printed), and the run over a listing is
    the run over the listing without it. *)
Theorem C5_other_runtimes_never_fetched (w : World) f runtime :
  f !! "Runtime" = Some runtime ->
  Str.contains "python" runtime = false ->
  (forall n, process_function w f n = mkOutcome [] n (Ok tt))
  /\ (forall before after n,
        for_each_function w (before ++ f :: after) n
        = for_each_function w (before ++ after) n).
Proof.
  intros Hr Hpy. split.
  - intros n. by eapply process_function_skips.
  - intros before after n. rewrite !for_each_function_app.
    apply bind_ext. intros _ n'. cbn [for_each_function].
    erewrite bind_ok by (by eapply process_function_skips).
    apply outcome_eta.
Qed.

Lemma C5_witness :
  let w := Demo.world [] in
  Demo.resize !! "Runtime" = Some "nodejs18.x"
  /\ Str.contains "python" "nodejs18.x" = false
  /\ (forall n, process_function w Demo.resize n = mkOutcome [] n (Ok tt))
  /\ (forall before after n,
        for_each_function w (before ++ Demo.resize :: after) n
        = for_each_function w (before ++ after) n).
Proof.
  intros w. split; [reflexivity|]. split; [reflexivity|].
  apply (C5_other_runtimes_never_fetched w Demo.resize "nodejs18.x");
    reflexivity.
Defined.

(** ** The archive fetcher *)

Lemma fetch_rejects (w : World) function_name url filename hdrs n :
  get_function w function_name = Ok url ->
  urlretrieve w url = Ok (filename, hdrs) ->
  headers_get hdrs "Content-Type" <> Some "application/zip" ->
  get_lambda_source_code w function_name n
  = mkOutcome [EvGetFunction function_name; EvUrlRetrieve url] n
      (Raise (UnsupportedPackageFormat function_name
                (headers_get hdrs "Content-Type"))).
Proof.
  intros Hget Hurl Hct. unfold get_lambda_source_code, bind, call. simpl.
  rewrite Hget. simpl. rewrite Hurl. simpl.
  by rewrite bool_decide_eq_false_2.
Qed.

(** C6. When the downloaded package declares a content type other than
    [application/zip], the fetch raises the unsupported-format error after
    the download and nothing else; the error ends the whole run there: the
    package is neither unpacked nor walked nor scanned, the functions listed
    after it are not processed, and the run's result is the error. *)
Theorem C6_wrong_content_type_aborts_run (w : World) f runtime function_name
    url filename hdrs :
  f !! "Runtime" = Some runtime ->
  Str.contains "python" runtime = true ->
  f !! "FunctionName" = Some function_name ->
  get_function w function_name = Ok url ->
  urlretrieve w url = Ok (filename, hdrs) ->
  headers_get hdrs "Content-Type" <> Some "application/zip" ->
  let err :=
    UnsupportedPackageFormat function_name (headers_get hdrs "Content-Type") in
  (forall n,
      get_lambda_source_code w function_name n
      = mkOutcome [EvGetFunction function_name; EvUrlRetrieve url] n (Raise err))
  /\ (forall before after n t n',
        for_each_function w before n = mkOutcome t n' (Ok tt) ->
        for_each_function w (before ++ f :: after) n
        = mkOutcome (t ++ [EvGetFunction function_name; EvUrlRetrieve url]) n'
            (Raise err)).
Proof.
  intros Hr Hpy Hname Hget Hurl Hct err. split.
  - intros n. by eapply fetch_rejects.
  - intros before after n t n' Hbefore. rewrite for_each_function_app.
    erewrite bind_ok by exact Hbefore. cbn [for_each_function].
    assert (process_function w f n'
            = mkOutcome [EvGetFunction function_name; EvUrlRetrieve url] n'
                (Raise err)) as Hf.
    { unfold process_function, getitem. rewrite Hr, Hname.
      rewrite bind_lift_ok, Hpy. cbn [negb]. rewrite bind_lift_ok.
      eapply bind_raise. by eapply fetch_rejects. }
    by rewrite (bind_raise _ _ _ _ _ _ Hf).
Qed.

Lemma C6_witness :
  let w := Demo.world [] in
  let hdrs := [("content-type", "application/x-tar")] in
  let err := UnsupportedPackageFormat "tarball" (Some "application/x-tar") in
  headers_get hdrs "Content-Type" = Some "application/x-tar"
  /\ (forall n,
        get_lambda_source_code w "tarball" n
        = mkOutcome [EvGetFunction "tarball";
                     EvUrlRetrieve "https://lambda.example/tarball"] n
            (Raise err))
  /\ (forall before after n t n',
        for_each_function w before n = mkOutcome t n' (Ok tt) ->
        for_each_function w (before ++ Demo.tarball :: after) n
        = mkOutcome (t ++ [EvGetFunction "tarball";
                           EvUrlRetrieve "https://lambda.example/tarball"]) n'
            (Raise err)).
Proof.
  intros w hdrs err. split; [reflexivity|].
  apply (C6_wrong_content_type_aborts_run w Demo.tarball "python3.8" "tarball"
           "https://lambda.example/tarball" "/tmp/tmpa" hdrs);
    try reflexivity.
  vm_compute. discriminate.
Defined.

(** C10. When the response has no [Content-Type] header, the fetch raises
    the same unsupported-format error, with [None] for the content type, and
    no scratch directory has been made by then: [mkdtemp] is not called and
    the count of scratch directories is unchanged.  A fetch makes its scratch
    directory only once the content type has been found to be
    [application/zip]. *)
Theorem C10_missing_content_type_no_scratch (w : World) function_name url
    filename hdrs :
  get_function w function_name = Ok url ->
  urlretrieve w url = Ok (filename, hdrs) ->
  headers_get hdrs "Content-Type" = None ->
  (forall n,
      get_lambda_source_code w function_name n
      = mkOutcome [EvGetFunction function_name; EvUrlRetrieve url] n
          (Raise (UnsupportedPackageFormat function_name None)))
  /\ (forall name n dir,
        EvMkdtemp dir ∈ trace (get_lambda_source_code w name n) ->
        exists url' filename' hdrs',
          get_function w name = Ok url'
          /\ urlretrieve w url' = Ok (filename', hdrs')
          /\ headers_get hdrs' "Content-Type" = Some "application/zip").
Proof.
  intros Hget Hurl Hct. split.
  - intros n. rewrite <- Hct. eapply fetch_rejects; [done..|]. by rewrite Hct.
  - intros name n dir. unfold get_lambda_source_code, bind, call. simpl.
    destruct (get_function w name) as [url'|e] eqn:Hg; simpl.
    2:{ by intros ?%list_elem_of_singleton. }
    destruct (urlretrieve w url') as [[filename' hdrs']|e] eqn:Hu; simpl.
    2:{ intros [?|[?|?%elem_of_nil]%elem_of_cons]%elem_of_cons; done. }
    case_bool_decide as Hzip; simpl.
    + intros _. by exists url', filename', hdrs'.
    + intros [?|[?|?%elem_of_nil]%elem_of_cons]%elem_of_cons; done.
Qed.

Lemma C10_witness :
  let w := Demo.world [] in
  let hdrs := [("Content-Length", "12")] in
  headers_get hdrs "Content-Type" = None
  /\ (forall n,
        get_lambda_source_code w "bare" n
        = mkOutcome [EvGetFunction "bare";
                     EvUrlRetrieve "https://lambda.example/bare"] n
            (Raise (UnsupportedPackageFormat "bare" None)))
  /\ (forall name n dir,
        EvMkdtemp dir ∈ trace (get_lambda_source_code w name n) ->
        exists url' filename' hdrs',
          get_function w name = Ok url'
          /\ urlretrieve w url' = Ok (filename', hdrs')
          /\ headers_get hdrs' "Content-Type" = Some "application/zip").
Proof.
  intros w hdrs. split; [reflexivity|].
  apply (C10_missing_content_type_no_scratch w "bare"
           "https://lambda.example/bare" "/tmp/tmpb" hdrs); reflexivity.
Defined.

(** ** The listing *)

Lemma get_all_functions_empty (w : World) :
  Forall (fun pg => Functions pg = []) (paginate w) ->
  get_all_functions w = [].
Proof.
  unfold get_all_functions.
  induction 1 as [|pg pgs Hpg _ IH]; simpl; [done|]. by rewrite Hpg, IH.
Qed.

(** C8. When every page of the listing is empty (and when there is no page
    at all), the program calls nothing, prints nothing and ends without an
    exception. *)
Theorem C8_empty_listing_no_output (w : World) :
  Forall (fun pg => Functions pg = []) (paginate w) ->
  main w = mkOutcome [] 0 (Ok tt).
Proof.
  intros H. unfold main. by rewrite (get_all_functions_empty w H).
Qed.

Lemma C8_witness :
  let w := Demo.world [ {| Functions := [] |}; {| Functions := [] |} ] in
  Forall (fun pg => Functions pg = []) (paginate w)
  /\ stdout (trace (main w)) = []
  /\ main w = mkOutcome [] 0 (Ok tt).
Proof.
  intros w.
  assert (Forall (fun pg => Functions pg = []) (paginate w)) as H.
  { by repeat constructor. }
  split; [exact H|].
  rewrite (C8_empty_listing_no_output w H). by split.
Defined.

(** ** The program on the small account *)

Example run_skips_node_and_flags_audit :
  stdout (trace (main (Demo.world [ {| Functions := [Demo.resize] |};
                                    {| Functions := [Demo.audit] |} ])))
  = [fail_banner "audit"; finding_line "handler.py"; finding_line "legacy.py"].
Proof. vm_compute. reflexivity. Qed.

Example run_only_library_file_is_ok :
  audit_package (Demo.world []) "audit" "/tmp/tmp0"
    ["/tmp/tmp0/boto3/vendored_helper.py"] 1
  = mkOutcome [EvPrint (ok_banner "audit")] 1 (Ok tt).
Proof. vm_compute. reflexivity. Qed.

Example run_stops_at_tarball :
  let o := main (Demo.world [ {| Functions := [Demo.audit; Demo.tarball;
                                               Demo.audit] |} ]) in
  value o = Raise (UnsupportedPackageFormat "tarball" (Some "application/x-tar"))
  /\ scratch o = 1
  /\ length (stdout (trace o)) = 3.
Proof. vm_compute. done. Qed.

(** * Further properties of the code *)

(** ** The classifier's loop *)

(** X1. The loop stops at the first matching line: it answers [True] with
    [rest] unread exactly when the lines are some non-matching lines, a
    matching one, and [rest]. *)
Theorem scan_lines_stops_at_first_match (ls rest : list bytes) :
  scan_lines ls = (true, rest)
  <-> exists pre l,
        ls = pre ++ l :: rest
        /\ Forall (fun l' => line_matches l' = false) pre
        /\ line_matches l = true.
Proof.
  split.
  - induction ls as [|l ls IH]; simpl; [done|].
    destruct (line_matches l) eqn:E.
    + intros [= <-]. by exists [], l.
    + intros (pre & l' & -> & Hpre & Hl)%IH.
      exists (l :: pre), l'. split; [done|]. split; [by constructor | done].
  - intros (pre & l & -> & Hpre & Hl).
    induction Hpre as [|l' pre Hl' _ IH]; simpl; [by rewrite Hl|].
    by rewrite Hl'.
Qed.

Lemma classify_true_occurs (open_rb : filesystem) path content :
  open_rb path = Some content ->
  contains_vendored_imports open_rb path = Ok true
  <-> exists pre post,
        content = pre ++ needle_import ++ post
        \/ content = pre ++ needle_from ++ post.
Proof.
  intros Hopen. rewrite (classify_content _ _ _ Hopen). split.
  - intros [= H].
    apply orb_prop in H as [(pre & post & ->)%contains_spec
                           |(pre & post & ->)%contains_spec];
      exists pre, post; auto.
  - intros (pre & post & [->| ->]); f_equal; apply orb_true_iff;
      [left|right]; apply contains_spec; eauto.
Qed.

(** X2. Reading line by line loses nothing: a file that can be opened is
    classified [True] exactly when one of the two needles occurs somewhere in
    its bytes. *)
Theorem classifier_true_iff_needle_occurs (open_rb : filesystem) path content :
  open_rb path = Some content ->
  contains_vendored_imports open_rb path = Ok true
  <-> exists pre post,
        content = pre ++ needle_import ++ post
        \/ content = pre ++ needle_from ++ post.
Proof. apply classify_true_occurs. Qed.

Lemma classifier_true_iff_needle_occurs_witness :
  Demo.demo_open "/tmp/tmp0/handler.py" = Some Demo.handler_py
  /\ (contains_vendored_imports Demo.demo_open "/tmp/tmp0/handler.py" = Ok true
      <-> exists pre post,
            Demo.handler_py = pre ++ needle_import ++ post
            \/ Demo.handler_py = pre ++ needle_from ++ post).
Proof.
  split; [reflexivity|].
  apply (classifier_true_iff_needle_occurs _ _ Demo.handler_py). reflexivity.
Defined.

(** X3. A flagged file stays flagged whatever is written before or after its
    bytes. *)
Theorem classifier_monotone (content before after : bytes) path :
  contains_vendored_imports (fun _ => Some content) path = Ok true ->
  contains_vendored_imports (fun _ => Some (before ++ content ++ after)) path
  = Ok true.
Proof.
  intros H.
  apply (classify_true_occurs _ _ content eq_refl) in H as (pre & post & H).
  apply (classify_true_occurs _ _ _ eq_refl).
  exists (before ++ pre), (post ++ after).
  destruct H as [->| ->]; [left|right]; by rewrite <- !app_assoc.
Qed.

Lemma classifier_monotone_witness :
  contains_vendored_imports (fun _ => Some Demo.helper_py) "a.py" = Ok true
  /\ contains_vendored_imports
       (fun _ => Some (Demo.app_py ++ Demo.helper_py ++ [xff])) "a.py"
     = Ok true.
Proof.
  split; [reflexivity|].
  apply (classifier_monotone Demo.helper_py Demo.app_py [xff] "a.py").
  reflexivity.
Defined.

(** ** The source walker *)

Lemma append_cons c (a b : string) : String c a +:+ b = String c (a +:+ b).
Proof. reflexivity. Qed.

Lemma append_assoc (a b c : string) : (a +:+ b) +:+ c = a +:+ b +:+ c.
Proof.
  induction a as [|x a IH]; [done|]. by rewrite !append_cons, IH.
Qed.

(** [s.endswith(suffix)] holds exactly when [s] is something followed by
    [suffix]. *)
Lemma endswith_spec suffix s :
  Str.endswith suffix s = true <-> exists stem, s = stem +:+ suffix.
Proof.
  split.
  - induction s as [|c s IH]; simpl.
    + rewrite orb_false_r. intros ->%String.eqb_eq. by exists "".
    + intros [->%String.eqb_eq|(stem & ->)%IH]%orb_prop; [by exists ""|].
      by exists (String c stem).
  - intros (stem & ->). induction stem as [|c stem IH].
    + change ("" +:+ suffix) with suffix.
      destruct suffix; simpl; [done|]. by rewrite Ascii.eqb_refl, String.eqb_refl.
    + rewrite append_cons. simpl. rewrite IH. apply orb_true_r.
Qed.

Lemma join_ends_with_name dirpath f : exists stem, posixpath.join dirpath f = stem +:+ f.
Proof.
  unfold posixpath.join. destruct (Str.startswith "/" f); [by exists ""|].
  destruct (_ || _); [by exists dirpath|].
  exists (dirpath +:+ "/"). by rewrite append_assoc.
Qed.

Lemma find_python_paths_elem walk p :
  p ∈ find_python_paths walk
  <-> exists dirpath dirnames filenames f,
        (dirpath, dirnames, filenames) ∈ walk
        /\ f ∈ filenames
        /\ Str.endswith ".py" f = true
        /\ p = posixpath.join dirpath f.
Proof.
  unfold find_python_paths. rewrite list_elem_of_In, in_flat_map. split.
  - intros ([[dirpath dirnames] filenames] & Hin & Hp). simpl in Hp.
    apply list_elem_of_In, list_elem_of_fmap in Hp as (f & -> & Hf).
    apply list_elem_of_filter in Hf as [Hpy Hf].
    exists dirpath, dirnames, filenames, f.
    rewrite list_elem_of_In. by apply Is_true_true in Hpy.
  - intros (dirpath & dirnames & filenames & f & Hin & Hf & Hpy & ->).
    exists (dirpath, dirnames, filenames). split; [by apply list_elem_of_In|].
    cbn [fst snd]. apply list_elem_of_In, list_elem_of_fmap.
    exists f. split; [done|].
    apply list_elem_of_filter. split; [|done]. by apply Is_true_true.
Qed.

(** X4. The walker yields exactly the files, of every directory the walk
    visits, whose name ends in [.py], each joined to its directory; the
    directory names of the walk play no part. *)
Theorem find_python_paths_yields_py_files walk p :
  p ∈ find_python_paths walk
  <-> exists dirpath dirnames filenames f,
        (dirpath, dirnames, filenames) ∈ walk
        /\ f ∈ filenames
        /\ Str.endswith ".py" f = true
        /\ p = posixpath.join dirpath f.
Proof. apply find_python_paths_elem. Qed.

Lemma find_python_paths_py walk p :
  p ∈ find_python_paths walk -> Str.endswith ".py" p = true.
Proof.
  intros (dirpath & _ & _ & f & _ & _ & Hpy & ->)%find_python_paths_elem.
  apply endswith_spec in Hpy as (stem & ->).
  destruct (join_ends_with_name dirpath (stem +:+ ".py")) as (pre & ->).
  apply endswith_spec. exists (pre +:+ stem). by rewrite append_assoc.
Qed.

(** X5. Every path the walker yields ends in [.py]. *)
Theorem find_python_paths_end_in_py walk p :
  p ∈ find_python_paths walk -> exists stem, p = stem +:+ ".py".
Proof. intros H%find_python_paths_py. by apply endswith_spec. Qed.

Lemma find_python_paths_end_in_py_witness :
  "/tmp/tmp0/handler.py" ∈ find_python_paths (Demo.demo_walk "/tmp/tmp0")
  /\ exists stem, "/tmp/tmp0/handler.py" = stem +:+ ".py".
Proof.
  assert ("/tmp/tmp0/handler.py" ∈ find_python_paths (Demo.demo_walk "/tmp/tmp0"))
    as H.
  { apply (bool_decide_unpack _). vm_compute. exact I. }
  split; [exact H|].
  apply (find_python_paths_end_in_py (Demo.demo_walk "/tmp/tmp0")). exact H.
Defined.

(** ** The archive fetcher, beyond the content-type check *)

Lemma mkdtemps_app t1 t2 : mkdtemps (t1 ++ t2) = mkdtemps t1 ++ mkdtemps t2.
Proof.
  induction t1 as [|ev t1 IH]; simpl; [done|].
  destruct ev; simpl; by rewrite ?IH.
Qed.

Lemma fetch_cases (w : World) function_name n :
  let o := get_lambda_source_code w function_name n in
  (mkdtemps (trace o) = [] /\ scratch o = n /\ exists e, value o = Raise e)
  \/ (mkdtemps (trace o) = [mkdtemp w n] /\ scratch o = S n
      /\ (value o = Ok (mkdtemp w n) \/ exists e, value o = Raise e)).
Proof.
  unfold get_lambda_source_code, bind, call, tempfile_mkdtemp. simpl.
  destruct (get_function w function_name) as [url|e]; simpl; [|by left; eauto].
  destruct (urlretrieve w url) as [[filename hdrs]|e]; simpl;
    [|by left; eauto].
  case_bool_decide; simpl; [|by left; eauto].
  right. destruct (unpack_archive _ _ _ _); simpl; eauto 6.
Qed.

(** X6. A fetch makes at most one scratch directory, the next one of the
    numbering; when it returns a directory, it is that one; when it makes
    none, it raises. *)
Theorem fetch_makes_at_most_one_scratch_dir (w : World) function_name n :
  let o := get_lambda_source_code w function_name n in
  (mkdtemps (trace o) = [] /\ scratch o = n /\ exists e, value o = Raise e)
  \/ (mkdtemps (trace o) = [mkdtemp w n] /\ scratch o = S n
      /\ (value o = Ok (mkdtemp w n) \/ exists e, value o = Raise e)).
Proof. apply fetch_cases. Qed.

(** X7. A fetch returns a directory exactly when the function's location is
    known, the download succeeds and declares [application/zip], and the
    archive unpacks as a zip into the fresh scratch directory; it returns
    that directory. *)
Theorem fetch_succeeds_iff (w : World) function_name n dir :
  value (get_lambda_source_code w function_name n) = Ok dir
  <-> exists url filename hdrs,
        get_function w function_name = Ok url
        /\ urlretrieve w url = Ok (filename, hdrs)
        /\ headers_get hdrs "Content-Type" = Some "application/zip"
        /\ unpack_archive w filename (mkdtemp w n) "zip" = Ok tt
        /\ dir = mkdtemp w n.
Proof.
  unfold get_lambda_source_code, bind, call, tempfile_mkdtemp. simpl. split.
  - destruct (get_function w function_name) as [url|e] eqn:Hg; simpl; [|done].
    destruct (urlretrieve w url) as [[filename hdrs]|e] eqn:Hu; simpl; [|done].
    case_bool_decide as Hct; simpl; [|done].
    destruct (unpack_archive _ _ _ _) as [[]|e] eqn:Hz; simpl; [|done].
    intros [= <-]. by exists url, filename, hdrs.
  - intros (url & filename & hdrs & -> & Hu & Hct & Hz & ->). simpl.
    rewrite Hu. simpl. rewrite bool_decide_eq_true_2 by done. simpl.
    by rewrite Hz.
Qed.

(** X8. When the archive does not unpack, the fetch raises what
    [unpack_archive] raised, and the scratch directory made for it stays
    behind: it was made before the unpacking and nothing removes it. *)
Theorem fetch_unpack_failure_leaves_scratch_dir (w : World) function_name
    url filename hdrs e n :
  get_function w function_name = Ok url ->
  urlretrieve w url = Ok (filename, hdrs) ->
  headers_get hdrs "Content-Type" = Some "application/zip" ->
  unpack_archive w filename (mkdtemp w n) "zip" = Raise e ->
  get_lambda_source_code w function_name n
  = mkOutcome [EvGetFunction function_name; EvUrlRetrieve url;
               EvMkdtemp (mkdtemp w n);
               EvUnpack filename (mkdtemp w n) "zip"] (S n) (Raise e).
Proof.
  intros Hg Hu Hct Hz.
  unfold get_lambda_source_code, bind, call, tempfile_mkdtemp. simpl.
  rewrite Hg. simpl. rewrite Hu. simpl.
  rewrite bool_decide_eq_true_2 by done. simpl. by rewrite Hz.
Qed.

Lemma fetch_unpack_failure_leaves_scratch_dir_witness :
  let w := {| paginate := []; get_function := fun n => Ok (Demo.url_of n);
              urlretrieve := Demo.demo_urlretrieve;
              mkdtemp := Demo.demo_mkdtemp;
              unpack_archive := fun _ _ _ => Raise (ExternalError "ReadError");
              os_walk := Demo.demo_walk; open_rb := Demo.demo_open;
              relpath := posixpath.relpath |} in
  get_lambda_source_code w "audit" 2
  = mkOutcome [EvGetFunction "audit";
               EvUrlRetrieve "https://lambda.example/audit";
               EvMkdtemp "/tmp/tmp2"; EvUnpack "/tmp/tmpc" "/tmp/tmp2" "zip"]
      3 (Raise (ExternalError "ReadError")).
Proof.
  intros w.
  apply (fetch_unpack_failure_leaves_scratch_dir w "audit"
           "https://lambda.example/audit" "/tmp/tmpc"
           [("Content-Length", "12"); ("Content-Type", "application/zip")]
           (ExternalError "ReadError") 2); reflexivity.
Defined.

(** X9. When the location cannot be had, or the download fails, the fetch
    raises that exception at once; it has made no scratch directory and,
    besides asking for the location and downloading, has done nothing. *)
Theorem fetch_api_or_download_failure (w : World) function_name e n :
  get_function w function_name = Raise e
  \/ (exists url, get_function w function_name = Ok url
                  /\ urlretrieve w url = Raise e) ->
  let o := get_lambda_source_code w function_name n in
  value o = Raise e
  /\ scratch o = n
  /\ Forall (fun ev => ev = EvGetFunction function_name
                       \/ exists url, ev = EvUrlRetrieve url) (trace o).
Proof.
  unfold get_lambda_source_code, bind, call. simpl.
  intros [->|(url & -> & Hu)]; simpl.
  - split; [done|]. split; [done|]. constructor; [by left | constructor].
  - rewrite Hu. simpl. split; [done|]. split; [done|].
    constructor; [by left|]. constructor; [right; by eexists | constructor].
Qed.

Lemma fetch_api_or_download_failure_witness :
  let w := {| paginate := []; get_function := fun n => Ok (Demo.url_of n);
              urlretrieve := fun _ => Raise (ExternalError "timed out");
              mkdtemp := Demo.demo_mkdtemp;
              unpack_archive := fun _ _ _ => Ok tt;
              os_walk := Demo.demo_walk; open_rb := Demo.demo_open;
              relpath := posixpath.relpath |} in
  let o := get_lambda_source_code w "audit" 4 in
  value o = Raise (ExternalError "timed out")
  /\ scratch o = 4
  /\ Forall (fun ev => ev = EvGetFunction "audit"
                       \/ exists url, ev = EvUrlRetrieve url) (trace o).
Proof.
  intros w.
  apply (fetch_api_or_download_failure w "audit" (ExternalError "timed out") 4).
  right. exists (Demo.url_of "audit"). split; reflexivity.
Defined.

(** ** The scan of a package, beyond the prefix rule *)

Lemma flagged_true (w : World) p :
  flagged w p = true
  <-> exists content,
        open_rb w p = Some content
        /\ exists pre post,
             content = pre ++ needle_import ++ post
             \/ content = pre ++ needle_from ++ post.
Proof.
  unfold flagged. split.
  - destruct (open_rb w p) as [content|] eqn:Hopen.
    + intros H. exists content. split; [done|].
      apply (classify_true_occurs _ _ _ Hopen).
      by destruct (contains_vendored_imports _ _) as [[]|].
    + unfold contains_vendored_imports. by rewrite Hopen.
  - intros (content & Hopen & H).
    apply (classify_true_occurs _ _ _ Hopen) in H. by rewrite H.
Qed.

(** X10. The findings of a scan that ends without an exception are exactly the
    relative paths of the walked files that are not under [boto3/] or
    [botocore/] and in whose bytes one of the two needles occurs. *)
Theorem findings_sound_and_complete (w : World) root paths n found :
  value (scan_paths w root paths [] n) = Ok found ->
  forall r,
    r ∈ found
    <-> exists p content,
          p ∈ paths
          /\ r = relpath w p root
          /\ Str.startswith_any library_prefixes r = false
          /\ open_rb w p = Some content
          /\ exists pre post,
               content = pre ++ needle_import ++ post
               \/ content = pre ++ needle_from ++ post.
Proof.
  intros ->%scan_paths_value r. unfold findings, candidates.
  rewrite list_elem_of_fmap. split.
  - intros (p & -> & [Hf [Hk Hp]%list_elem_of_filter]%list_elem_of_filter).
    apply flagged_true in Hf as (content & Hopen & Hocc).
    by exists p, content.
  - intros (p & content & Hp & -> & Hk & Hopen & Hocc).
    exists p. split; [done|]. apply list_elem_of_filter. split.
    + apply flagged_true. eauto.
    + by apply list_elem_of_filter.
Qed.

Lemma findings_sound_and_complete_witness :
  let w := Demo.world [] in
  let paths := find_python_paths (os_walk w "/tmp/tmp0") in
  value (scan_paths w "/tmp/tmp0" paths [] 1) = Ok ["legacy.py"; "handler.py"]
  /\ forall r,
       r ∈ ["legacy.py"; "handler.py"]
       <-> exists p content,
             p ∈ paths
             /\ r = relpath w p "/tmp/tmp0"
             /\ Str.startswith_any library_prefixes r = false
             /\ open_rb w p = Some content
             /\ exists pre post,
                  content = pre ++ needle_import ++ post
                  \/ content = pre ++ needle_from ++ post.
Proof.
  intros w paths. split; [reflexivity|].
  apply (findings_sound_and_complete w "/tmp/tmp0" paths 1). reflexivity.
Defined.

Lemma scan_paths_stops (w : World) root paths pre p post found n :
  candidates w root paths = pre ++ p :: post ->
  Forall (fun q => is_Some (open_rb w q)) pre ->
  open_rb w p = None ->
  scan_paths w root paths found n
  = mkOutcome (map EvOpen (pre ++ [p])) n (Raise (OSError p)).
Proof.
  unfold candidates. revert pre found.
  induction paths as [|q paths IH]; intros pre found Hc Hpre Hp.
  { by destruct pre. }
  cbn [scan_paths]. fold (excluded w root q). rewrite filter_cons in Hc.
  destruct (decide (excluded w root q = false)) as [Hk|Hk].
  - rewrite Hk. unfold bind, call. simpl. destruct pre as [|q' pre].
    + injection Hc as -> Hc. by rewrite (classify_None _ _ Hp).
    + injection Hc as -> Hc. apply Forall_cons in Hpre as [Hq Hpre].
      rewrite (classify_is_Some _ _ Hq). simpl.
      by destruct (flagged w q'); rewrite (IH pre _ Hc Hpre Hp).
  - apply not_false_is_true in Hk. rewrite Hk. by apply IH.
Qed.

(** X11. A file that cannot be opened ends the scan: the files before it have
    been opened, those after it are not, and the package gets no report, the
    exception of [open] being the outcome. *)
Theorem scan_stops_at_unreadable_file (w : World) function_name root paths
    pre p post n :
  candidates w root paths = pre ++ p :: post ->
  Forall (fun q => is_Some (open_rb w q)) pre ->
  open_rb w p = None ->
  audit_package w function_name root paths n
  = mkOutcome (map EvOpen (pre ++ [p])) n (Raise (OSError p)).
Proof.
  intros Hc Hpre Hp. unfold audit_package.
  eapply bind_raise. by eapply scan_paths_stops.
Qed.

Lemma scan_stops_at_unreadable_file_witness :
  let w := Demo.world [] in
  let paths := ["/tmp/tmp0/handler.py"; "/tmp/tmp0/boto3/session.py";
                "/tmp/tmp0/gone.py"; "/tmp/tmp0/app.py"] in
  audit_package w "audit" "/tmp/tmp0" paths 1
  = mkOutcome [EvOpen "/tmp/tmp0/handler.py"; EvOpen "/tmp/tmp0/gone.py"] 1
      (Raise (OSError "/tmp/tmp0/gone.py")).
Proof.
  intros w paths.
  apply (scan_stops_at_unreadable_file w "audit" "/tmp/tmp0" paths
           ["/tmp/tmp0/handler.py"] "/tmp/tmp0/gone.py" ["/tmp/tmp0/app.py"] 1).
  - reflexivity.
  - repeat constructor. by eexists.
  - reflexivity.
Defined.

Lemma report_run function_name found n :
  report function_name found n
  = mkOutcome (map EvPrint (report_lines function_name found)) n (Ok tt).
Proof.
  destruct found as [|r found]; [done|].
  unfold report, bind, print, call. simpl. by rewrite print_all_run.
Qed.

Lemma audit_package_ok (w : World) function_name root paths n :
  Forall (fun p => is_Some (open_rb w p)) (candidates w root paths) ->
  audit_package w function_name root paths n
  = mkOutcome (map EvOpen (candidates w root paths)
               ++ map EvPrint (report_lines function_name
                                 (findings w root paths))) n (Ok tt).
Proof.
  intros H. unfold audit_package.
  erewrite bind_ok by apply (scan_paths_ok _ _ _ [] n H). simpl.
  by rewrite report_run.
Qed.

(** X12. When every file the scan hands to the classifier can be opened, the
    loop is a filter: it opens, in walk order and once each, the walked files
    outside [boto3/] and [botocore/], then prints the report of the flagged
    ones; the scratch numbering is untouched and nothing is raised. *)
Theorem audit_package_is_filter_then_report (w : World) function_name root
    paths n :
  Forall (fun p => is_Some (open_rb w p)) (candidates w root paths) ->
  audit_package w function_name root paths n
  = mkOutcome (map EvOpen (candidates w root paths)
               ++ map EvPrint (report_lines function_name
                                 (findings w root paths))) n (Ok tt).
Proof. apply audit_package_ok. Qed.

Lemma audit_package_is_filter_then_report_witness :
  let w := Demo.world [] in
  let paths := find_python_paths (os_walk w "/tmp/tmp0") in
  audit_package w "audit" "/tmp/tmp0" paths 1
  = mkOutcome (map EvOpen (candidates w "/tmp/tmp0" paths)
               ++ map EvPrint (report_lines "audit"
                                 (findings w "/tmp/tmp0" paths))) 1 (Ok tt).
Proof.
  intros w paths.
  apply (audit_package_is_filter_then_report w "audit" "/tmp/tmp0" paths 1).
  apply (bool_decide_unpack _). vm_compute. exact I.
Defined.

(** ** One function, and the loop over all of them *)

Lemma audit_package_events (w : World) function_name root paths n :
  let o := audit_package w function_name root paths n in
  scratch o = n
  /\ forall ev, ev ∈ trace o ->
       (exists q, ev = EvOpen q /\ q ∈ paths /\ excluded w root q = false)
       \/ exists l, ev = EvPrint l.
Proof.
  destruct (candidates_openable_dec w root paths) as [H|H].
  - rewrite (audit_package_ok _ _ _ _ _ H). simpl. split; [done|].
    intros ev [(q & -> & Hq)%list_elem_of_fmap
              |(l & -> & _)%list_elem_of_fmap]%elem_of_app; [left|right; eauto].
    apply list_elem_of_filter in Hq as [? ?]. eauto.
  - destruct (scan_paths_raise _ _ _ [] n H) as (t & e & Hrun & _).
    unfold audit_package. rewrite (bind_raise _ _ _ _ _ _ Hrun). simpl.
    split; [done|]. intros ev Hev. left.
    apply (scan_paths_trace w root paths [] n). by rewrite Hrun.
Qed.

Lemma mkdtemps_none t :
  (forall ev, ev ∈ t -> forall dir, ev <> EvMkdtemp dir) -> mkdtemps t = [].
Proof.
  induction t as [|ev t IH]; intros H; [done|].
  destruct ev; simpl;
    try (apply IH; intros ev' Hev'; apply H; by right).
  exfalso. eapply H; [by left | done].
Qed.

Lemma fetch_never_opens (w : World) function_name n p :
  EvOpen p ∉ trace (get_lambda_source_code w function_name n).
Proof.
  unfold get_lambda_source_code, bind, call, tempfile_mkdtemp. simpl.
  destruct (get_function w function_name) as [url|e]; simpl;
    [destruct (urlretrieve w url) as [[filename hdrs]|e]; simpl;
     [case_bool_decide; simpl;
      [destruct (unpack_archive _ _ _ _); simpl|]|]|];
    rewrite !elem_of_cons, elem_of_nil; intuition discriminate.
Qed.

Lemma bind_call_ok {A B} ev (a : A) (k : A -> M B) n :
  bind (call ev (Ok a)) k n
  = mkOutcome (ev :: trace (k a n)) (scratch (k a n)) (value (k a n)).
Proof. reflexivity. Qed.

Lemma process_function_python (w : World) f runtime function_name n :
  f !! "Runtime" = Some runtime ->
  Str.contains "python" runtime = true ->
  f !! "FunctionName" = Some function_name ->
  process_function w f n
  = (source_code_dir <- get_lambda_source_code w function_name ;;
     python_paths <-
       call (EvWalk source_code_dir)
            (Ok (find_python_paths (os_walk w source_code_dir))) ;;
     audit_package w function_name source_code_dir python_paths) n.
Proof.
  intros Hr Hpy Hname. unfold process_function, getitem. rewrite Hr, Hname.
  rewrite bind_lift_ok, Hpy. cbn [negb]. by rewrite bind_lift_ok.
Qed.

(** What one turn of the loop can do to the scratch numbering and to the
    file system. *)
Lemma process_function_inv (w : World) f n :
  let o := process_function w f n in
  ((scratch o = n /\ mkdtemps (trace o) = [])
   \/ (scratch o = S n /\ mkdtemps (trace o) = [mkdtemp w n]
       /\ is_python f = true))
  /\ (value o = Ok tt -> scratch o = if is_python f then S n else n)
  /\ (forall p, EvOpen p ∈ trace o ->
        mkdtemps (trace o) = [mkdtemp w n]
        /\ p ∈ find_python_paths (os_walk w (mkdtemp w n))
        /\ excluded w (mkdtemp w n) p = false).
Proof.
  unfold is_python.
  destruct (f !! "Runtime") as [runtime|] eqn:Hr.
  2:{ unfold process_function, getitem. rewrite Hr. unfold bind, lift. simpl.
      split; [by left|]. split; [done|]. by intros p ?%elem_of_nil. }
  destruct (Str.contains "python" runtime) eqn:Hpy.
  2:{ rewrite (process_function_skips _ _ _ _ Hr Hpy). simpl.
      split; [by left|]. split; [done|]. by intros p ?%elem_of_nil. }
  destruct (f !! "FunctionName") as [function_name|] eqn:Hname.
  2:{ unfold process_function, getitem. rewrite Hr, Hname.
      rewrite bind_lift_ok, Hpy. cbn [negb]. unfold bind, lift. simpl.
      split; [by left|]. split; [done|]. by intros p ?%elem_of_nil. }
  rewrite (process_function_python _ _ _ _ _ Hr Hpy Hname).
  pose proof (fetch_cases w function_name n) as Hfetch.
  pose proof (fetch_never_opens w function_name n) as Hno.
  destruct (get_lambda_source_code w function_name n) as [t n' v] eqn:Hrun.
  simpl in Hfetch, Hno.
  destruct Hfetch as [(Hm & -> & e & ->)|(Hm & -> & [->|[e ->]])].
  - rewrite (bind_raise _ _ _ _ _ _ Hrun). simpl.
    split; [by left|]. split; [done|]. intros p Hp. by apply Hno in Hp.
  - rewrite (bind_ok _ _ _ _ _ _ Hrun), bind_call_ok. simpl.
    destruct (audit_package_events w function_name (mkdtemp w n)
                (find_python_paths (os_walk w (mkdtemp w n))) (S n))
      as [Hs Hev].
    rewrite Hs.
    assert (mkdtemps
              (t ++ EvWalk (mkdtemp w n)
                 :: trace (audit_package w function_name (mkdtemp w n)
                             (find_python_paths (os_walk w (mkdtemp w n)))
                             (S n)))
            = [mkdtemp w n]) as Hall.
    { rewrite mkdtemps_app, Hm. simpl. rewrite mkdtemps_none; [done|].
      intros ev [(q & -> & _)|(l & -> )]%Hev dir; done. }
    split; [by right|]. split; [done|].
    intros p [Hp|[?|Hp]%elem_of_cons]%elem_of_app; [by apply Hno in Hp|done|].
    apply Hev in Hp as [(q & [= <-] & ? & ?)|(l & ?)]; done.
  - rewrite (bind_raise _ _ _ _ _ _ Hrun). simpl.
    split; [by right|]. split; [done|]. intros p Hp. by apply Hno in Hp.
Qed.

Lemma for_each_function_cons_ok (w : World) f fs n t n' :
  process_function w f n = mkOutcome t n' (Ok tt) ->
  for_each_function w (f :: fs) n
  = mkOutcome (t ++ trace (for_each_function w fs n'))
      (scratch (for_each_function w fs n'))
      (value (for_each_function w fs n')).
Proof. intros H. cbn [for_each_function]. by rewrite (bind_ok _ _ _ _ _ _ H). Qed.

Lemma for_each_function_cons_raise (w : World) f fs n t n' e :
  process_function w f n = mkOutcome t n' (Raise e) ->
  for_each_function w (f :: fs) n = mkOutcome t n' (Raise e).
Proof. intros H. cbn [for_each_function]. by rewrite (bind_raise _ _ _ _ _ _ H). Qed.

Lemma for_each_function_inv (w : World) fs n :
  let o := for_each_function w fs n in
  n <= scratch o
  /\ mkdtemps (trace o) = map (mkdtemp w) (seq n (scratch o - n))
  /\ (value o = Ok tt ->
      scratch o = n + length (filter (fun f => is_python f = true) fs))
  /\ (forall p, EvOpen p ∈ trace o ->
        exists root,
          root ∈ mkdtemps (trace o)
          /\ p ∈ find_python_paths (os_walk w root)
          /\ excluded w root p = false).
Proof.
  revert n. induction fs as [|f fs IH]; intros n.
  { simpl. rewrite Nat.sub_diag. split; [lia|]. split; [done|].
    split; [intros _; lia | by intros p ?%elem_of_nil]. }
  pose proof (process_function_inv w f n) as (Hs & Hok & Hopen).
  destruct (process_function w f n) as [t n' [[]|e]] eqn:Hrun;
    simpl in Hs, Hok, Hopen.
  - rewrite (for_each_function_cons_ok _ _ _ _ _ _ Hrun). simpl.
    destruct (IH n') as (Hle & Hm & Hval & Hop).
    rewrite mkdtemps_app, Hm, filter_cons. split; [|split; [|split]].
    + destruct Hs as [[-> _]|[-> _]]; lia.
    + destruct Hs as [[-> ->]|(-> & -> & _)]; [done|].
      replace (scratch (for_each_function w fs (S n)) - n)
        with (S (scratch (for_each_function w fs (S n)) - S n)) by lia.
      done.
    + intros Hv. rewrite (Hval Hv), (Hok eq_refl).
      destruct (is_python f); simpl; lia.
    + intros p [Hp|Hp]%elem_of_app.
      * destruct (Hopen p Hp) as (Ht & ? & ?). exists (mkdtemp w n).
        rewrite Ht. split; [|done]. apply elem_of_app. left. by left.
      * destruct (Hop p Hp) as (root & Hroot & ? & ?). exists root.
        rewrite <- Hm. split; [|done]. apply elem_of_app. by right.
  - rewrite (for_each_function_cons_raise _ _ _ _ _ _ _ Hrun). simpl.
    split; [|split; [|split]].
    + destruct Hs as [[-> _]|[-> _]]; lia.
    + destruct Hs as [[-> ->]|(-> & -> & _)]; [by rewrite Nat.sub_diag|].
      by replace (S n - n) with 1 by lia.
    + done.
    + intros p Hp. destruct (Hopen p Hp) as (Ht & ? & ?).
      exists (mkdtemp w n). rewrite Ht. split; [by left | done].
Qed.


(** X14. Nothing removes a scratch directory: a run that ends without an
    exception has made one for every listed function whose runtime contains
    [python], and no other. *)
Theorem successful_run_leaves_one_scratch_dir_per_python_function
    (w : World) fs n :
  value (for_each_function w fs n) = Ok tt ->
  length (mkdtemps (trace (for_each_function w fs n)))
  = length (filter (fun f => is_python f = true) fs)
  /\ scratch (for_each_function w fs n)
     = n + length (filter (fun f => is_python f = true) fs).
Proof.
  intros Hv. destruct (for_each_function_inv w fs n) as (Hle & Hm & Hok & _).
  specialize (Hok Hv). split; [|done].
  rewrite Hm, length_map, length_seq. lia.
Qed.

Lemma successful_run_leaves_one_scratch_dir_per_python_function_witness :
  let w := Demo.world [] in
  let fs := [Demo.audit; Demo.resize; Demo.audit] in
  value (for_each_function w fs 0) = Ok tt
  /\ length (mkdtemps (trace (for_each_function w fs 0))) = 2
  /\ scratch (for_each_function w fs 0) = 2.
Proof.
  intros w fs. split; [reflexivity|].
  apply (successful_run_leaves_one_scratch_dir_per_python_function w fs 0).
  reflexivity.
Defined.

(** X15. Whatever the listing, the run opens only files that the walk of one of
    its own scratch directories yielded: their names end in [.py], and their
    paths relative to that directory do not start with [boto3/] or
    [botocore/]. *)
Theorem run_opens_only_walked_python_files (w : World) fs n p :
  EvOpen p ∈ trace (for_each_function w fs n) ->
  Str.endswith ".py" p = true
  /\ exists root,
       root ∈ mkdtemps (trace (for_each_function w fs n))
       /\ p ∈ find_python_paths (os_walk w root)
       /\ Str.startswith_any library_prefixes (relpath w p root) = false.
Proof.
  intros Hp. destruct (for_each_function_inv w fs n) as (_ & _ & _ & Hopen).
  destruct (Hopen p Hp) as (root & Hroot & Hwalk & Hk).
  split; [by eapply find_python_paths_py | by exists root].
Qed.

Lemma run_opens_only_walked_python_files_witness :
  let w := Demo.world [] in
  let fs := [Demo.resize; Demo.audit] in
  EvOpen "/tmp/tmp0/app.py" ∈ trace (for_each_function w fs 0)
  /\ Str.endswith ".py" "/tmp/tmp0/app.py" = true
  /\ exists root,
       root ∈ mkdtemps (trace (for_each_function w fs 0))
       /\ "/tmp/tmp0/app.py" ∈ find_python_paths (os_walk w root)
       /\ Str.startswith_any library_prefixes
            (relpath w "/tmp/tmp0/app.py" root) = false.
Proof.
  intros w fs.
  assert (EvOpen "/tmp/tmp0/app.py" ∈ trace (for_each_function w fs 0)) as H.
  { vm_compute. do 7 right. by left. }
  split; [exact H|].
  apply (run_opens_only_walked_python_files w fs 0 "/tmp/tmp0/app.py"). exact H.
Defined.

Lemma for_each_function_raises (w : World) before f after n t n' t' n'' e :
  for_each_function w before n = mkOutcome t n' (Ok tt) ->
  process_function w f n' = mkOutcome t' n'' (Raise e) ->
  for_each_function w (before ++ f :: after) n
  = mkOutcome (t ++ t') n'' (Raise e).
Proof.
  intros Hbefore Hf. rewrite for_each_function_app.
  rewrite (bind_ok _ _ _ _ _ _ Hbefore).
  by rewrite (for_each_function_cons_raise _ _ _ _ _ _ _ Hf).
Qed.

(** X16. No exception is caught: the first function whose processing raises ends
    the run with that exception, and the functions listed after it are never
    looked at. *)
Theorem first_failure_ends_run (w : World) before f after n t n' t' n'' e :
  for_each_function w before n = mkOutcome t n' (Ok tt) ->
  process_function w f n' = mkOutcome t' n'' (Raise e) ->
  for_each_function w (before ++ f :: after) n
  = mkOutcome (t ++ t') n'' (Raise e).
Proof. apply for_each_function_raises. Qed.

Lemma first_failure_ends_run_witness :
  let w := Demo.world [] in
  for_each_function w ([Demo.audit; Demo.resize] ++ Demo.bare :: [Demo.audit]) 0
  = mkOutcome
      (trace (for_each_function w [Demo.audit; Demo.resize] 0)
       ++ [EvGetFunction "bare"; EvUrlRetrieve "https://lambda.example/bare"])
      1 (Raise (UnsupportedPackageFormat "bare" None)).
Proof.
  intros w.
  apply (first_failure_ends_run w [Demo.audit; Demo.resize] Demo.bare
           [Demo.audit] 0 _ 1); reflexivity.
Defined.

(** X17. A descriptor with no [Runtime] key, or a Python one with no
    [FunctionName] key, raises [KeyError] for that key before anything is
    fetched: no call is made and no scratch directory. *)
Theorem missing_key_raises_KeyError (w : World) f n :
  f !! "Runtime" = None
  \/ (is_python f = true /\ f !! "FunctionName" = None) ->
  process_function w f n
  = mkOutcome [] n
      (Raise (KeyError (match f !! "Runtime" with
                        | Some _ => "FunctionName"
                        | None => "Runtime"
                        end))).
Proof.
  unfold is_python, process_function, getitem.
  intros [Hr|[Hpy Hname]].
  - by rewrite Hr.
  - destruct (f !! "Runtime") as [runtime|]; [|done].
    rewrite bind_lift_ok, Hpy, Hname. done.
Qed.

Lemma missing_key_raises_KeyError_witness :
  let image : descriptor :=
    {[ "FunctionName" := "from-image"; "PackageType" := "Image" ]} in
  process_function (Demo.world []) image 3
  = mkOutcome [] 3 (Raise (KeyError "Runtime")).
Proof.
  intros image.
  apply (missing_key_raises_KeyError (Demo.world []) image 3).
  left. reflexivity.
Defined.

Lemma for_each_function_python_only (w : World) fs n :
  Forall (fun f => is_Some (f !! "Runtime")) fs ->
  for_each_function w fs n
  = for_each_function w (filter (fun f => is_python f = true) fs) n.
Proof.
  intros H. revert n. induction H as [|f fs [runtime Hr] _ IH]; intros n.
  { done. }
  assert (is_python f = Str.contains "python" runtime) as Hf.
  { unfold is_python. by rewrite Hr. }
  rewrite filter_cons. destruct (Str.contains "python" runtime) eqn:Hpy.
  - rewrite decide_True by done. cbn [for_each_function].
    apply bind_ext. intros _ n'. apply IH.
  - rewrite decide_False by (by rewrite Hf). cbn [for_each_function].
    rewrite (bind_ok _ _ _ _ _ _ (process_function_skips w f runtime n Hr Hpy)).
    rewrite <- IH. apply outcome_eta.
Qed.

(** X18. When every descriptor has its [Runtime], the run over a listing is, call
    for call and line for line, the run over its Python functions alone. *)
Theorem run_is_run_over_python_functions (w : World) fs n :
  Forall (fun f => is_Some (f !! "Runtime")) fs ->
  for_each_function w fs n
  = for_each_function w (filter (fun f => is_python f = true) fs) n.
Proof. apply for_each_function_python_only. Qed.

Lemma run_is_run_over_python_functions_witness :
  let w := Demo.world [] in
  filter (fun f => is_python f = true)
    [Demo.resize; Demo.audit; Demo.resize; Demo.tarball]
  = [Demo.audit; Demo.tarball]
  /\ for_each_function w [Demo.resize; Demo.audit; Demo.resize; Demo.tarball] 0
     = for_each_function w
         (filter (fun f => is_python f = true)
            [Demo.resize; Demo.audit; Demo.resize; Demo.tarball]) 0.
Proof.
  intros w. split; [reflexivity|].
  apply (run_is_run_over_python_functions w
           [Demo.resize; Demo.audit; Demo.resize; Demo.tarball] 0).
  repeat constructor; by eexists.
Defined.

Lemma fetch_ok (w : World) function_name url filename hdrs n :
  get_function w function_name = Ok url ->
  urlretrieve w url = Ok (filename, hdrs) ->
  headers_get hdrs "Content-Type" = Some "application/zip" ->
  unpack_archive w filename (mkdtemp w n) "zip" = Ok tt ->
  get_lambda_source_code w function_name n
  = mkOutcome [EvGetFunction function_name; EvUrlRetrieve url;
               EvMkdtemp (mkdtemp w n);
               EvUnpack filename (mkdtemp w n) "zip"] (S n)
      (Ok (mkdtemp w n)).
Proof.
  intros Hg Hu Hct Hz.
  unfold get_lambda_source_code, bind, call, tempfile_mkdtemp. simpl.
  rewrite Hg. simpl. rewrite Hu. simpl.
  rewrite bool_decide_eq_true_2 by done. simpl. by rewrite Hz.
Qed.

(** X19. The whole of one turn of the loop, when nothing fails: for a Python
    function whose package is a zip that unpacks and whose scanned files all
    open, the program asks for the location, downloads, makes the scratch
    directory, unpacks, walks, opens the files outside [boto3/] and
    [botocore/] in walk order, and prints the report; one scratch directory
    is left. *)
Theorem process_function_success (w : World) f runtime function_name url
    filename hdrs n :
  f !! "Runtime" = Some runtime ->
  Str.contains "python" runtime = true ->
  f !! "FunctionName" = Some function_name ->
  get_function w function_name = Ok url ->
  urlretrieve w url = Ok (filename, hdrs) ->
  headers_get hdrs "Content-Type" = Some "application/zip" ->
  unpack_archive w filename (mkdtemp w n) "zip" = Ok tt ->
  let dir := mkdtemp w n in
  let paths := find_python_paths (os_walk w dir) in
  Forall (fun p => is_Some (open_rb w p)) (candidates w dir paths) ->
  process_function w f n
  = mkOutcome
      ([EvGetFunction function_name; EvUrlRetrieve url; EvMkdtemp dir;
        EvUnpack filename dir "zip"; EvWalk dir]
       ++ map EvOpen (candidates w dir paths)
       ++ map EvPrint (report_lines function_name (findings w dir paths)))
      (S n) (Ok tt).
Proof.
  intros Hr Hpy Hname Hg Hu Hct Hz dir paths Hopen.
  rewrite (process_function_python _ _ _ _ _ Hr Hpy Hname).
  rewrite (bind_ok _ _ _ _ _ _ (fetch_ok _ _ _ _ _ _ Hg Hu Hct Hz)).
  rewrite bind_call_ok. fold dir. fold paths.
  by rewrite (audit_package_ok _ _ _ _ _ Hopen).
Qed.

Lemma process_function_success_witness :
  let w := Demo.world [] in
  process_function w Demo.audit 0
  = mkOutcome
      ([EvGetFunction "audit"; EvUrlRetrieve "https://lambda.example/audit";
        EvMkdtemp "/tmp/tmp0"; EvUnpack "/tmp/tmpc" "/tmp/tmp0" "zip";
        EvWalk "/tmp/tmp0"]
       ++ map EvOpen
            (candidates w "/tmp/tmp0"
               (find_python_paths (os_walk w "/tmp/tmp0")))
       ++ map EvPrint
            (report_lines "audit"
               (findings w "/tmp/tmp0"
                  (find_python_paths (os_walk w "/tmp/tmp0")))))
      1 (Ok tt).
Proof.
  intros w.
  apply (process_function_success w Demo.audit "python3.9" "audit"
           "https://lambda.example/audit" "/tmp/tmpc"
           [("Content-Length", "12"); ("Content-Type", "application/zip")] 0);
    try reflexivity.
  apply (bool_decide_unpack _). vm_compute. exact I.
Defined.

(** ** The lines of a file *)

Lemma eqb_LF b : Byte.eqb b LF = true <-> b = LF.
Proof. split; [apply Byte.byte_dec_bl | apply Byte.byte_dec_lb]. Qed.

(** X20. The lines the loop reads cut the file at its line feeds and nowhere
    else: put end to end they are the file, none is empty, a line feed is
    only ever the last byte of a line, and every line but the last ends in
    one. *)
Theorem lines_cut_at_line_feeds (s : bytes) :
  concat (lines s) = s
  /\ Forall (fun l => l <> [] /\ LF ∉ removelast l) (lines s)
  /\ Forall (fun l => last l = Some LF) (removelast (lines s)).
Proof.
  split; [apply concat_lines|].
  induction s as [|b s [IH1 IH2]]; simpl; [by split; constructor|].
  destruct (Byte.eqb b LF) eqn:Hb.
  - apply eqb_LF in Hb as ->. split.
    + constructor; [|done]. split; [done|]. simpl. by intros ?%elem_of_nil.
    + destruct (lines s) as [|l ls]; [constructor|].
      constructor; [done|]. exact IH2.
  - apply Byte.eqb_false in Hb. destruct (lines s) as [|l ls].
    + split; [|constructor]. constructor; [|done]. split; [done|].
      simpl. by intros ?%elem_of_nil.
    + apply Forall_cons in IH1 as [[Hl Hlf] IH1]. split.
      * constructor; [|done]. split; [done|].
        destruct l as [|c l]; [done|].
        change (removelast (b :: c :: l)) with (b :: removelast (c :: l)).
        intros [?|?]%elem_of_cons; [by subst | done].
      * destruct ls as [|l' ls]; [constructor|].
        change (removelast (l :: l' :: ls)) with (l :: removelast (l' :: ls))
          in IH2.
        apply Forall_cons in IH2 as [Hlast IH2].
        change (removelast ((b :: l) :: l' :: ls))
          with ((b :: l) :: removelast (l' :: ls)).
        constructor; [|done]. destruct l as [|c l]; [done|]. exact Hlast.
Qed.

(** ** The printed lines *)

Lemma length_append (a b : string) :
  String.length (a +:+ b) = String.length a + String.length b.
Proof. induction a as [|c a IH]; [done|]. rewrite append_cons. simpl. by rewrite IH. Qed.

Lemma append_inj_r (a b c : string) : a +:+ c = b +:+ c -> a = b.
Proof.
  revert b. induction a as [|x a IH]; intros [|y b] H.
  - done.
  - apply (f_equal String.length) in H.
    rewrite !length_append in H. simpl in H. lia.
  - apply (f_equal String.length) in H.
    rewrite !length_append in H. simpl in H. lia.
  - rewrite !append_cons in H. injection H as -> H. f_equal. by apply IH.
Qed.

Lemma pretty_function_name_inj a b :
  pretty_function_name a = pretty_function_name b -> a = b.
Proof.
  unfold pretty_function_name. intros H%(inj (String.app _)).
  by apply append_inj_r in H.
Qed.

(** X21. The three kinds of line the program prints cannot be taken for one
    another, and each says what it is about: a finding line is never a
    banner, an OK banner is never a FAIL banner, a banner is that of one
    function name only, and a finding line that of one path only. *)
Theorem printed_lines_are_unambiguous :
  (forall p n, finding_line p <> ok_banner n /\ finding_line p <> fail_banner n)
  /\ (forall n n', ok_banner n <> fail_banner n')
  /\ (forall n n', ok_banner n = ok_banner n' -> n = n')
  /\ (forall n n', fail_banner n = fail_banner n' -> n = n')
  /\ (forall p p', finding_line p = finding_line p' -> p = p').
Proof.
  split; [|split; [|split; [|split]]].
  - intros p n. split; intros H; vm_compute in H; discriminate.
  - intros n n' H. vm_compute in H. discriminate.
  - intros n n'. unfold ok_banner.
    intros H%(inj (String.app _))%(inj (String.app _))%(inj (String.app _)).
    apply (inj (String.app _)), (inj (String.app _)) in H.
    by apply pretty_function_name_inj.
  - intros n n'. unfold fail_banner.
    intros H%(inj (String.app _))%(inj (String.app _))%(inj (String.app _)).
    apply (inj (String.app _)), (inj (String.app _)) in H.
    apply append_inj_r in H. by apply pretty_function_name_inj.
  - intros p p'. unfold finding_line. by intros H%(inj (String.app _)).
Qed.

(** ** The prefix rule *)

Lemma startswith_spec p s :
  Str.startswith p s = true <-> exists rest, s = p +:+ rest.
Proof.
  revert s. induction p as [|a p IH]; intros s.
  - split; [by exists s | done].
  - destruct s as [|b s]; simpl.
    + split; [done | by intros (rest & ?)].
    + rewrite andb_true_iff, IH, Ascii.eqb_eq. split.
      * intros (-> & rest & ->). by exists rest.
      * intros (rest & H). rewrite append_cons in H. injection H as -> ->.
        eauto.
Qed.

(** X22. The prefix rule looks at the start of the relative path only: a file is
    left out exactly when that path is [boto3/] or [botocore/] followed by
    something; a copy of either library deeper in the package is scanned like
    any other file. *)
Theorem excluded_iff_top_level_library (w : World) root p :
  excluded w root p = true
  <-> exists rest,
        relpath w p root = "boto3/" +:+ rest
        \/ relpath w p root = "botocore/" +:+ rest.
Proof.
  unfold excluded, Str.startswith_any, library_prefixes. cbn [existsb].
  rewrite orb_false_r, orb_true_iff, !startswith_spec. split.
  - intros [(rest & ->)|(rest & ->)]; exists rest; auto.
  - intros (rest & [->| ->]); [left|right]; by exists rest.
Qed.
